(** * django_cron: the scheduling decision and the run-record lifecycle

    A shallow embedding of [django_cron/__init__.py]: the [Schedule] value,
    the [CronJobManager] object with its optional attributes, the decision
    procedure [should_run_now], the context-manager pair
    [__enter__]/[__exit__] and the method [run].

    Python objects are records whose late-bound attributes are [option]s
    (an attribute that was never assigned is [None] here, and reading it
    raises [AttributeError]); methods are computations in a small
    state-and-exception monad over the manager object and its environment
    (run log, clock, logger). *)

From Stdlib Require Import ZArith List Bool Ascii String Lia.
From Stdlib Require Import DecimalString.
Import ListNotations.

Local Open Scope Z_scope.

(** ** Python strings *)

Module PyStr.

(** The line feed, written [\n] in the source. *)
Definition nl : string := String "010"%char EmptyString.

(** [u'\n...\n'], the separator between a status message and a trace. *)
Definition ellipsis : string := (nl ++ "..." ++ nl)%string.

Definition len (s : string) : Z := Z.of_nat (String.length s).

Fixpoint drop (n : nat) (s : string) : string :=
  match n, s with
  | O, _ => s
  | S _, EmptyString => EmptyString
  | S n', String _ s' => drop n' s'
  end.

(** [s[i:]] with Python's rule for a negative or oversized start. *)
Definition slice_from (s : string) (i : Z) : string :=
  let n := len s in
  let start := if i <? 0 then Z.max 0 (n + i) else Z.min i n in
  drop (Z.to_nat start) s.

(** Truth value of a string: only the empty one is false. *)
Definition truthy (s : string) : bool :=
  match s with EmptyString => false | String _ _ => true end.

(** [str(n)] for an integer. *)
Definition of_int (n : Z) : string := NilZero.string_of_int (Z.to_int n).

End PyStr.

(** ** Wall-clock time

    A timestamp is a number of microseconds on the server's time axis,
    midnight falling on the multiples of a day. *)

Module Clock.

Definition usec_per_minute : Z := 60000000.
Definition usec_per_hour : Z := 3600000000.
Definition usec_per_day : Z := 86400000000.

(** [timedelta(minutes=n)] *)
Definition timedelta_minutes (n : Z) : Z := n * usec_per_minute.

(** [datetime.now().hour] and [datetime.now().minute] *)
Definition hour (t : Z) : Z := (t mod usec_per_day) / usec_per_hour.
Definition minute (t : Z) : Z := (t mod usec_per_hour) / usec_per_minute.

(** [datetime.today().date()], as the query layer compares it with a
    timestamp: the midnight that opens the current day. *)
Definition today (t : Z) : Z := t - t mod usec_per_day.

End Clock.

(** ** [time.strptime(_, "%H:%M")]

    The format compiles to the regular expression
    [(2[0-3]|[0-1]\d|\d):([0-5]\d|\d)], matched at the start of the text
    with backtracking; text left over after the match is an error. The
    result is a [struct_time], a 9-tuple whose date part is the default
    1900-01-01 (a Monday, day 1 of the year, DST unknown). *)

Module Strptime.

Definition is_digit (c : ascii) : bool :=
  let n := nat_of_ascii c in (48 <=? n)%nat && (n <=? 57)%nat.

Definition digit (c : ascii) : Z := Z.of_nat (nat_of_ascii c) - 48.

(** The alternatives of [%H], in the order the expression lists them. *)
Definition directive_H (s : string) : list (Z * string) :=
  (match s with
   | String c1 (String c2 r) =>
       (if Ascii.eqb c1 "2" && is_digit c2 && (digit c2 <=? 3)
        then [(20 + digit c2, r)] else []) ++
       (if is_digit c1 && (digit c1 <=? 1) && is_digit c2
        then [(10 * digit c1 + digit c2, r)] else [])
   | _ => []
   end) ++
  (match s with
   | String c1 r => if is_digit c1 then [(digit c1, r)] else []
   | EmptyString => []
   end).

(** The alternatives of [%M]. *)
Definition directive_M (s : string) : list (Z * string) :=
  (match s with
   | String c1 (String c2 r) =>
       if is_digit c1 && (digit c1 <=? 5) && is_digit c2
       then [(10 * digit c1 + digit c2, r)] else []
   | _ => []
   end) ++
  (match s with
   | String c1 r => if is_digit c1 then [(digit c1, r)] else []
   | EmptyString => []
   end).

(** First way (in backtracking order) to match hour, colon and minute;
    returns the fields and the text the match did not consume. *)
Fixpoint first_match (hs : list (Z * string)) : option (Z * Z * string) :=
  match hs with
  | [] => None
  | (h, String c r) :: hs' =>
      if Ascii.eqb c ":" then
        match directive_M r with
        | (m, rest) :: _ => Some (h, m, rest)
        | [] => first_match hs'
        end
      else first_match hs'
  | (_, EmptyString) :: hs' => first_match hs'
  end.

Definition struct_time : Type := list Z.

Definition make_struct_time (h m : Z) : struct_time :=
  [1900; 1; 1; h; m; 0; 0; 1; -1].

(** [None] stands for the [ValueError] of a text that does not match the
    format or has unconverted data left. *)
Definition strptime (data_string : string) : option struct_time :=
  match first_match (directive_H data_string) with
  | Some (h, m, EmptyString) => Some (make_struct_time h m)
  | _ => None
  end.

(** Tuples compare lexicographically. *)
Fixpoint compare (a b : struct_time) : comparison :=
  match a, b with
  | [], [] => Eq
  | [], _ :: _ => Lt
  | _ :: _, [] => Gt
  | x :: a', y :: b' =>
      match Z.compare x y with
      | Eq => compare a' b'
      | c => c
      end
  end.

Definition ge (a b : struct_time) : bool :=
  match compare a b with Lt => false | _ => true end.

End Strptime.

(** ** Data model *)

Record Schedule := mkSchedule {
  run_every_mins : option Z;
  run_at_times : list string;
  retry_after_failure_mins : option Z
}.

(** Modelled from the spec: [django_cron.models.CronJobLog] is imported by
    the source but its declaration is not part of it. The fields are those
    of the spec's JobRunRecord; a field the constructor call leaves out is
    blank until [__exit__] assigns it. *)
Module CronJobLog.

Record t := mk {
  code : string;
  start_time : Z;
  end_time : option Z;
  is_success : bool;
  message : option string;
  ran_at_time : option string
}.

(** [CronJobLog(code=c, start_time=t)] *)
Definition create (c : string) (start : Z) : t :=
  mk c start None false None None.

(** Modelled from the spec: [latest('start_time')] is "the latest record
    ordered by start time". Among records that start at the same instant
    the storage is free to pick; the one stored first is taken here. *)
Fixpoint latest (l : list t) : option t :=
  match l with
  | [] => None
  | r :: l' =>
      match latest l' with
      | Some r' => if start_time r' >? start_time r then Some r' else Some r
      | None => Some r
      end
  end.

End CronJobLog.

Inductive Level := DEBUG | INFO | ERROR.

(** The environment of a manager: the run log behind
    [CronJobLog.objects], the clock, what the ['django_cron'] logger has
    received, and whether the storage refuses a write (with the text of
    the exception [save] then raises). Reading the clock does not advance
    it: within one method call every reading is the same instant, and time
    passes while the job body runs. *)
Record World := mkWorld {
  objects : list CronJobLog.t;
  now : Z;
  logged : list (Level * string);
  save_error : option string
}.

(** What [do()] yields: the returned value ([None] or a string) or an
    exception, carried as the text [traceback.format_exception] renders. *)
Inductive DoResult :=
| Returns (msg : option string)
| Raises (trace : string).

(** A class handed to the manager, and (its attributes being class
    attributes) also the instance [cron_job_class()]. [is_cron_job] is the
    answer of [issubclass(_, CronJobBase)]; [code], [schedule] and [do]
    are the members the [CronJobBase] docstring asks of a sub-class;
    [str] is how an instance prints. *)
Record CronJob := mkCronJob {
  is_cron_job : bool;
  code : string;
  schedule : Schedule;
  str : string;
  do : World -> DoResult * World
}.

(** Any object can be passed as [cron_job_class]. *)
Inductive PyObject :=
| Class (c : CronJob)
| NotAClass (code_attr : option string).

Inductive PyExc :=
| AttributeError (attr : string)
| TypeError (text : string)
| ValueError (text : string)
| Exception (text : string)
| JobError (trace : string).

(** [str(e)], the text of an exception. *)
Definition exc_text (e : PyExc) : string :=
  match e with
  | AttributeError a => ("object has no attribute '" ++ a ++ "'")%string
  | TypeError s | ValueError s | Exception s | JobError s => s
  end.

Definition exc_name (e : PyExc) : string :=
  match e with
  | AttributeError _ => "AttributeError"
  | TypeError _ => "TypeError"
  | ValueError _ => "ValueError"
  | Exception _ | JobError _ => "Exception"
  end.

(** ["".join(traceback.format_exception(...))]: for what the job body
    raised, the trace it carries; for the exceptions raised by the manager
    itself, the closing line of the trace. *)
Definition format_exception (e : PyExc) : string :=
  match e with
  | JobError t => t
  | _ => (exc_name e ++ ": " ++ exc_text e ++ PyStr.nl)%string
  end.

(** The manager object. [cron_job_class] and [silent] are set by
    [__init__]; the other four attributes exist only once a method has
    assigned them. A bound [user_time] or [msg] may hold Python's [None]. *)
Record CronJobManager := mkManager {
  cron_job_class : PyObject;
  silent : bool;
  cron_job : option CronJob;
  user_time : option (option string);
  msg : option (option string);
  cron_log : option CronJobLog.t
}.

(** [CronJobManager(cron_job_class, silent)] *)
Definition __init__ (cls : PyObject) (silent : bool) : CronJobManager :=
  mkManager cls silent None None None None.

Definition set_cron_job (j : CronJob) (m : CronJobManager) :=
  mkManager (cron_job_class m) (silent m) (Some j) (user_time m) (msg m) (cron_log m).
Definition set_user_time (u : option string) (m : CronJobManager) :=
  mkManager (cron_job_class m) (silent m) (cron_job m) (Some u) (msg m) (cron_log m).
Definition set_msg (v : option string) (m : CronJobManager) :=
  mkManager (cron_job_class m) (silent m) (cron_job m) (user_time m) (Some v) (cron_log m).
Definition set_cron_log (l : CronJobLog.t) (m : CronJobManager) :=
  mkManager (cron_job_class m) (silent m) (cron_job m) (user_time m) (msg m) (Some l).

(** ** The monad of method bodies

    A method runs on the manager it is bound to and on the environment,
    and either returns a value or raises; both leave a state behind. *)

Inductive Outcome (A : Type) :=
| Return (a : A)
| Raise (e : PyExc).
Arguments Return {A} a.
Arguments Raise {A} e.

Definition Py (A : Type) : Type :=
  CronJobManager -> World -> Outcome A * CronJobManager * World.

Definition ret {A} (a : A) : Py A := fun m w => (Return a, m, w).

Definition raise {A} (e : PyExc) : Py A := fun m w => (Raise e, m, w).

Definition bind {A B} (c : Py A) (k : A -> Py B) : Py B :=
  fun m w =>
    match c m w with
    | (Return a, m', w') => k a m' w'
    | (Raise e, m', w') => (Raise e, m', w')
    end.

Notation "x <- c ;; k" := (bind c (fun x => k))
  (at level 61, c at next level, right associativity).
Notation "c ;; k" := (bind c (fun _ => k))
  (at level 61, right associativity).

(** [self.<attr>] for an attribute that may not be bound yet. *)
Definition getattr {A} (name : string) (field : CronJobManager -> option A) : Py A :=
  fun m w =>
    match field m with
    | Some v => (Return v, m, w)
    | None => (Raise (AttributeError name), m, w)
    end.

(** [self.<attr> = v] *)
Definition setattr (update : CronJobManager -> CronJobManager) : Py unit :=
  fun m w => (Return tt, update m, w).

Definition self : Py CronJobManager := fun m w => (Return m, m, w).

Definition world : Py World := fun m w => (Return w, m, w).

(** [logger.debug], [logger.info], [logger.error] *)
Definition logger (lvl : Level) (text : string) : Py unit :=
  fun m w =>
    (Return tt, m,
     mkWorld (objects w) (now w) (logged w ++ [(lvl, text)]) (save_error w)).

(** Modelled from the spec: [cron_log.save()] of a record not yet stored
    appends it to the run log, unless the storage rejects the write. *)
Definition save (r : CronJobLog.t) : Py unit :=
  fun m w =>
    match save_error w with
    | Some e => (Raise (Exception e), m, w)
    | None =>
        (Return tt, m,
         mkWorld (objects w ++ [r]) (now w) (logged w) (save_error w))
    end.

(** Running the job body: it sees and may change the environment, not the
    manager. *)
Definition call_do (j : CronJob) : Py (option string) :=
  fun m w =>
    match do j w with
    | (Returns v, w') => (Return v, m, w')
    | (Raises t, w') => (Raise (JobError t), m, w')
    end.

(** ** [should_run_now] *)

(** [filter(code=c)] *)
Definition has_code (c : string) (r : CronJobLog.t) : bool :=
  String.eqb (CronJobLog.code r) c.

(** [ran_at_time__isnull=True] *)
Definition ran_at_time_isnull (r : CronJobLog.t) : bool :=
  match CronJobLog.ran_at_time r with None => true | Some _ => false end.

(** [ran_at_time=time_data] *)
Definition ran_at (time_data : string) (r : CronJobLog.t) : bool :=
  match CronJobLog.ran_at_time r with
  | Some t => String.eqb t time_data
  | None => false
  end.

(** Lines 59-83, the block under [run_every_mins != None]. [Some b] is a
    [return b] taken inside the block, [None] is control leaving the block
    for the fixed-time rule. The integer [retry_after_failure_mins] counts
    as set when it is truthy, that is not zero. *)
Definition interval_rule (s : Schedule) (c : string) (w : World) : option bool :=
  match run_every_mins s with
  | None => None
  | Some every =>
      let last_job :=
        CronJobLog.latest (filter (has_code c) (objects w)) in
      let retry :=
        match last_job, retry_after_failure_mins s with
        | Some lj, Some delay =>
            if negb (CronJobLog.is_success lj) && negb (delay =? 0)
            then Some (now w >? CronJobLog.start_time lj + Clock.timedelta_minutes delay)
            else None
        | _, _ => None
        end in
      match retry with
      | Some b => Some b
      | None =>
          let previously_ran_successful_cron :=
            CronJobLog.latest
              (filter (fun r => has_code c r && CronJobLog.is_success r
                                && ran_at_time_isnull r)
                      (objects w)) in
          match previously_ran_successful_cron with
          | Some p =>
              if now w >? CronJobLog.start_time p + Clock.timedelta_minutes every
              then Some true
              else None
          | None => Some true
          end
      end
  end.

(** The query of line 89: records of this code, tagged with this slot,
    whose start is later than today's date. *)
Definition ran_today (c : string) (time_data : string) (w : World)
  : list CronJobLog.t :=
  filter (fun r => has_code c r
                   && (Clock.today (now w) <? CronJobLog.start_time r)
                   && ran_at time_data r)
         (objects w).

(** ["%s:%s" % (hour, minute)] *)
Definition clock_text (h mi : Z) : string :=
  (PyStr.of_int h ++ ":" ++ PyStr.of_int mi)%string.

(** Lines 85-92, the loop over [run_at_times]: the slot that fires first,
    [None] when the loop runs to its end, or the [ValueError] of a slot
    that does not parse. *)
Fixpoint run_at_times_loop (c : string) (w : World) (times : list string)
  : Outcome (option string) :=
  match times with
  | [] => Return None
  | time_data :: rest =>
      match Strptime.strptime time_data with
      | None => Raise (ValueError time_data)
      | Some user_time =>
          let text := clock_text (Clock.hour (now w)) (Clock.minute (now w)) in
          match Strptime.strptime text with
          | None => Raise (ValueError text)
          | Some actual_time =>
              if Strptime.ge actual_time user_time
              then match ran_today c time_data w with
                   | [] => Return (Some time_data)
                   | _ :: _ => run_at_times_loop c w rest
                   end
              else run_at_times_loop c w rest
          end
      end
  end.

Definition should_run_now (force : bool) : Py bool :=
  cron_job <- getattr "cron_job" cron_job ;;
  setattr (set_user_time None) ;;
  if force then ret true
  else
    w <- world ;;
    match interval_rule (schedule cron_job) (code cron_job) w with
    | Some b => ret b
    | None =>
        match run_at_times_loop (code cron_job) w
                (run_at_times (schedule cron_job)) with
        | Raise e => raise e
        | Return (Some time_data) =>
            setattr (set_user_time (Some time_data)) ;; ret true
        | Return None => ret false
        end
    end.

(** ** The context manager *)

Definition __enter__ : Py unit :=
  m <- self ;;
  w <- world ;;
  match cron_job_class m with
  | Class c => setattr (set_cron_log (CronJobLog.create (code c) (now w)))
  | NotAClass (Some c) => setattr (set_cron_log (CronJobLog.create c (now w)))
  | NotAClass None => raise (AttributeError "code")
  end.

(** The text kept when an exception reaches [__exit__] (lines 115-119). *)
Definition failure_message (cron_msg : option string) (trace : string) : string :=
  match cron_msg with
  | Some text =>
      if PyStr.truthy text then
        let offset := 1000 - PyStr.len text - PyStr.len PyStr.ellipsis in
        (text ++ PyStr.ellipsis ++ PyStr.slice_from trace (- offset))%string
      else PyStr.slice_from trace (-1000)
  | None => PyStr.slice_from trace (-1000)
  end.

Definition truthy_msg (cron_msg : option string) : bool :=
  match cron_msg with Some text => PyStr.truthy text | None => false end.

(** [__exit__(ex_type, ex_value, ex_traceback)]; the three arguments are
    [None] together or describe one exception. The returned [True] tells
    the [with] statement to swallow that exception. *)
Definition __exit__ (ex : option PyExc) : Py bool :=
  cron_log <- getattr "cron_log" cron_log ;;
  cron_msg <- getattr "msg" msg ;;
  m <- self ;;
  outcome <-
    match ex with
    | Some e =>
        let trace := format_exception e in
        (if negb (silent m) then
           (if truthy_msg cron_msg
            then logger INFO (match cron_msg with Some t => t | None => EmptyString end)
            else ret tt) ;;
           logger ERROR trace
         else ret tt) ;;
        ret (false, Some (failure_message cron_msg trace))
    | None => ret (true, cron_msg)
    end ;;
  w <- world ;;
  let record :=
    CronJobLog.mk (CronJobLog.code cron_log) (CronJobLog.start_time cron_log)
      (Some (now w)) (fst outcome) (snd outcome)
      (match user_time m with Some u => u | None => None end) in
  setattr (set_cron_log record) ;;
  (fun m' w' =>
     match save record m' w' with
     | (Raise e, m'', w'') =>
         logger ERROR
           ("Error saving cronjob log message: " ++ exc_text e)%string m'' w''
     | (Return _, m'', w'') => (Return tt, m'', w'')
     end) ;;
  ret true.

(** ** [run] *)

Definition run (force : bool) : Py unit :=
  m <- self ;;
  match cron_job_class m with
  | NotAClass _ => raise (TypeError "issubclass() arg 1 must be a class")
  | Class cron_job_class =>
      if negb (is_cron_job cron_job_class)
      then raise (Exception "The cron_job to be run must be a subclass of CronJobBase")
      else
        setattr (set_cron_job cron_job_class) ;;
        go <- should_run_now force ;;
        if go then
          logger DEBUG ("Running cron: " ++ str cron_job_class ++ " code "
                        ++ code cron_job_class)%string ;;
          v <- call_do cron_job_class ;;
          setattr (set_msg v)
        else ret tt
  end.

(** The class docstring prescribes the use: the manager is the context
    manager of a [with] statement whose body calls [run],

      with CronJobManager(cron_job_class, silent) as manager:
          manager.run(force)

    and this is that statement: [__enter__], the body, then [__exit__]
    with the exception the body raised, which is swallowed when [__exit__]
    returns true; an exception raised by [__exit__] itself takes its
    place. *)
Definition with_run (force : bool) : Py unit :=
  fun m w =>
    match __enter__ m w with
    | (Raise e, m1, w1) => (Raise e, m1, w1)
    | (Return _, m1, w1) =>
        match run force m1 w1 with
        | (Return _, m2, w2) =>
            match __exit__ None m2 w2 with
            | (Return _, m3, w3) => (Return tt, m3, w3)
            | (Raise e', m3, w3) => (Raise e', m3, w3)
            end
        | (Raise e, m2, w2) =>
            match __exit__ (Some e) m2 w2 with
            | (Return true, m3, w3) => (Return tt, m3, w3)
            | (Return false, m3, w3) => (Raise e, m3, w3)
            | (Raise e', m3, w3) => (Raise e', m3, w3)
            end
        end
    end.

(** ** Auxiliary notions and sample values *)

(** An argument [run] refuses: not a class, or a class that does not
    derive from [CronJobBase]. *)
Definition not_a_cron_job (o : PyObject) : Prop :=
  match o with
  | Class c => is_cron_job c = false
  | NotAClass _ => True
  end.

(** A record that the query of line 89 counts as started today: it
    started later than the midnight that opens the current day. *)
Definition started_today (w : World) (r : CronJobLog.t) : Prop :=
  Clock.today (now w) < CronJobLog.start_time r.

(** What [__exit__] hands to the logger before it fills the record. *)
Definition exit_logs (quiet : bool) (cron_msg : option string)
           (ex : option PyExc) : list (Level * string) :=
  match ex with
  | None => []
  | Some e =>
      if quiet then []
      else match cron_msg with
           | Some text => if PyStr.truthy text then [(INFO, text)] else []
           | None => []
           end ++ [(ERROR, format_exception e)]
  end.

(** The record [__exit__] fills in from the object [__enter__] made. *)
Definition exit_record (m : CronJobManager) (cron_log : CronJobLog.t)
           (cron_msg : option string) (ex : option PyExc) (t : Z)
  : CronJobLog.t :=
  CronJobLog.mk (CronJobLog.code cron_log) (CronJobLog.start_time cron_log)
    (Some t)
    (match ex with None => true | Some _ => false end)
    (match ex with
     | None => cron_msg
     | Some e => Some (failure_message cron_msg (format_exception e))
     end)
    (match user_time m with Some u => u | None => None end).

(** The environment [__exit__] leaves: the record stored, or the refusal
    of the storage logged. *)
Definition exit_world (entries : list (Level * string)) (r : CronJobLog.t)
           (w : World) : World :=
  match save_error w with
  | None => mkWorld (objects w ++ [r]) (now w) (logged w ++ entries) None
  | Some err =>
      mkWorld (objects w) (now w)
        ((logged w ++ entries)
         ++ [(ERROR, ("Error saving cronjob log message: " ++ err)%string)])
        (Some err)
  end.

(** The environment once [run] has logged that the job starts. *)
Definition announced (j : CronJob) (w : World) : World :=
  mkWorld (objects w) (now w)
    (logged w ++ [(DEBUG, ("Running cron: " ++ str j ++ " code " ++ code j)%string)])
    (save_error w).

(** Whether the text [run_at_times_loop] prints for a time of day parses
    back to that time of day. *)
Definition reparses (h mi : nat) : bool :=
  match Strptime.strptime (clock_text (Z.of_nat h) (Z.of_nat mi)) with
  | Some st =>
      if list_eq_dec Z.eq_dec st
           (Strptime.make_struct_time (Z.of_nat h) (Z.of_nat mi))
      then true else false
  | None => false
  end.

(** Whether a fixed time fires now for a code (lines 86-90 for one
    [time_data]): it parses, the clock's hour and minute are at or past
    it, and the query of today's records tagged with it is empty. *)
Definition slot_fires (c : string) (w : World) (time_data : string) : bool :=
  match Strptime.strptime time_data with
  | Some user_time =>
      Strptime.ge
        (Strptime.make_struct_time (Clock.hour (now w)) (Clock.minute (now w)))
        user_time
      && match ran_today c time_data w with [] => true | _ :: _ => false end
  | None => false
  end.

(** The verdict of a method call, without the state it leaves. *)
Definition verdict {A} (r : Outcome A * CronJobManager * World) : Outcome A :=
  fst (fst r).

Definition manager_after {A} (r : Outcome A * CronJobManager * World)
  : CronJobManager := snd (fst r).

Definition world_after {A} (r : Outcome A * CronJobManager * World) : World :=
  snd r.

Module Sample.

(** Midnight of some day, and a time of day on it. *)
Definition midnight : Z := 20000 * Clock.usec_per_day.

Definition at_time (h mi : Z) : Z :=
  midnight + h * Clock.usec_per_hour + mi * Clock.usec_per_minute.

Definition returning (text : string) : World -> DoResult * World :=
  fun w => (Returns (Some text), w).

Definition failing (trace : string) : World -> DoResult * World :=
  fun w => (Raises trace, w).

Definition job (s : Schedule) (body : World -> DoResult * World) : CronJob :=
  mkCronJob true "reports.daily" s "<ReportsDaily>" body.

Definition record (start : Z) (ok : bool) (slot : option string)
  : CronJobLog.t :=
  CronJobLog.mk "reports.daily" start (Some start) ok (Some EmptyString) slot.

Definition env (log : list CronJobLog.t) (t : Z) : World :=
  mkWorld log t [] None.

Fixpoint filler (n : nat) (c : ascii) : string :=
  match n with
  | O => EmptyString
  | S n' => String c (filler n' c)
  end.

(** A status message of 50 characters and a trace of 1200. *)
Definition status50 : string := filler 50 "s".
Definition trace1200 : string := filler 1200 "t".

(** A manager inside its [with] block that already holds a status
    message. *)
Definition entered (j : CronJob) (quiet : bool) (text : string) (t : Z)
  : CronJobManager :=
  mkManager (Class j) quiet (Some j) (Some None) (Some (Some text))
            (Some (CronJobLog.create (code j) t)).

End Sample.

(** * Properties *)

(** ** The latest record of a query *)

Section Latest.

Import CronJobLog.

Lemma latest_None (l : list t) : latest l = None -> l = [].
Proof.
  destruct l as [|r l']; [reflexivity|]. simpl.
  destruct (latest l') as [r'|]; [|discriminate].
  destruct (start_time r' >? start_time r); discriminate.
Qed.

Lemma latest_In (l : list t) (r : t) : latest l = Some r -> In r l.
Proof.
  revert r. induction l as [|a l' IH]; simpl; intros r H; [discriminate|].
  destruct (latest l') as [r'|] eqn:E.
  - destruct (start_time r' >? start_time a); inversion H; subst; auto.
  - inversion H; auto.
Qed.

Lemma latest_max (l : list t) (r : t) :
  latest l = Some r -> forall x, In x l -> start_time x <= start_time r.
Proof.
  revert r. induction l as [|a l' IH]; simpl; intros r H x Hx; [contradiction|].
  destruct (latest l') as [r'|] eqn:E.
  - specialize (IH r' eq_refl).
    destruct (start_time r' >? start_time a) eqn:C;
      inversion H; subst; destruct Hx as [<-|Hx]; try lia;
      specialize (IH x Hx); lia.
  - apply latest_None in E. subst l'. inversion H; subst.
    destruct Hx as [<-|[]]. lia.
Qed.

(** The latest record of a query is also the latest of any narrower
    query that still selects it. *)
Lemma latest_filter (P : t -> bool) (l : list t) (r : t) :
  latest l = Some r -> P r = true -> latest (filter P l) = Some r.
Proof.
  revert r. induction l as [|a l' IH]; simpl; intros r H HP; [discriminate|].
  destruct (latest l') as [r'|] eqn:E.
  - destruct (start_time r' >? start_time a) eqn:C; inversion H; subst.
    + specialize (IH r eq_refl HP).
      destruct (P a); simpl; rewrite IH; [rewrite C|]; reflexivity.
    + rewrite HP. simpl.
      destruct (latest (filter P l')) as [r''|] eqn:E'; [|reflexivity].
      apply latest_In in E'. apply filter_In in E'. destruct E' as [Hin _].
      pose proof (latest_max _ _ E _ Hin).
      destruct (start_time r'' >? start_time r) eqn:C'; [lia|reflexivity].
  - apply latest_None in E. subst l'. inversion H; subst.
    simpl. rewrite HP. reflexivity.
Qed.

End Latest.

(** ** Running a method body *)

Ltac run_py :=
  unfold bind, getattr, setattr, ret, raise, self, world; cbn.

(** What [should_run_now] does once [self.cron_job] is bound: the slot is
    reset, then the rules are tried in order. *)
Lemma should_run_now_unfold (force : bool) (m : CronJobManager) (w : World)
      (j : CronJob) :
  cron_job m = Some j ->
  should_run_now force m w =
  if force then (Return true, set_user_time None m, w)
  else match interval_rule (schedule j) (code j) w with
       | Some b => (Return b, set_user_time None m, w)
       | None =>
           match run_at_times_loop (code j) w (run_at_times (schedule j)) with
           | Raise e => (Raise e, set_user_time None m, w)
           | Return (Some time_data) =>
               (Return true, set_user_time (Some time_data) m, w)
           | Return None => (Return false, set_user_time None m, w)
           end
       end.
Proof.
  intros Hj. unfold should_run_now. run_py. rewrite Hj.
  destruct force; [reflexivity|].
  destruct (interval_rule _ _ _) as [b|]; [reflexivity|].
  destruct (run_at_times_loop _ _ _) as [[t|]|e]; reflexivity.
Qed.

(** C7: with [force] set, [should_run_now] answers true whatever the
    schedule of the job and whatever the run log holds, and the matched
    fixed-time slot it leaves on the manager is absent. *)
Theorem should_run_now_force (m : CronJobManager) (j : CronJob) (w : World) :
  should_run_now true (set_cron_job j m) w
  = (Return true, set_user_time None (set_cron_job j m), w)
  /\ user_time (set_user_time None (set_cron_job j m)) = Some None.
Proof.
  split; [|reflexivity].
  now rewrite (should_run_now_unfold true (set_cron_job j m) w j eq_refl).
Qed.

(** C9: whatever the manager, the run log, the clock and the force flag,
    [should_run_now] hands back the environment it was given; in
    particular the run log afterwards is the run log before. *)
Theorem should_run_now_reads_only (force : bool) (m : CronJobManager) (w : World) :
  snd (should_run_now force m w) = w
  /\ objects (snd (should_run_now force m w)) = objects w.
Proof.
  assert (H : snd (should_run_now force m w) = w).
  { destruct (cron_job m) as [j|] eqn:Hj.
    - rewrite (should_run_now_unfold force m w j Hj).
      destruct force; [reflexivity|].
      destruct (interval_rule _ _ _) as [b|]; [reflexivity|].
      destruct (run_at_times_loop _ _ _) as [[t|]|e]; reflexivity.
    - unfold should_run_now. run_py. rewrite Hj. reflexivity. }
  split; [exact H|now rewrite H].
Qed.

(** C8: when the object held as [cron_job_class] is not a sub-class of
    [CronJobBase], [run] raises at once: the manager is exactly as it was
    (no job instance, the slot of [should_run_now] untouched, no record
    object) and so is the environment, run log included. *)
Theorem run_rejects_non_job (force : bool) (m : CronJobManager) (w : World) :
  not_a_cron_job (cron_job_class m) ->
  exists e, run force m w = (Raise e, m, w)
            /\ objects (snd (run force m w)) = objects w.
Proof.
  unfold not_a_cron_job, run. run_py.
  destruct (cron_job_class m) as [c|o]; intros H.
  - rewrite H. cbn. eexists; split; reflexivity.
  - eexists; split; reflexivity.
Qed.

Lemma run_rejects_non_job_witness :
  let m := __init__ (Class (mkCronJob false "not.a.job"
                              (mkSchedule (Some 5) [] None) "<Plain>"
                              (Sample.returning "ok"))) false in
  let w := Sample.env [Sample.record Sample.midnight true None]
                      (Sample.at_time 9 0) in
  not_a_cron_job (cron_job_class m)
  /\ exists e, run true m w = (Raise e, m, w)
               /\ objects (snd (run true m w)) = objects w.
Proof.
  intros m w. split; [reflexivity|].
  apply (run_rejects_non_job true m w). reflexivity.
Defined.

(** ** The interval rules *)

(** C3: when the latest record of the code failed and the schedule sets a
    retry delay [delay] (a positive number in the data model; the code
    needs it non-zero) next to an interval [every], [should_run_now]
    answers exactly whether the clock is strictly after the start of that
    record plus [delay] minutes: false up to and including that instant,
    true after it. Neither [every] nor the fixed times nor the rest of the
    log take part in the answer. *)
Theorem retry_window_decides
        (m : CronJobManager) (j : CronJob) (w : World)
        (every delay : Z) (last : CronJobLog.t) :
  cron_job m = Some j ->
  run_every_mins (schedule j) = Some every ->
  retry_after_failure_mins (schedule j) = Some delay ->
  delay <> 0 ->
  CronJobLog.latest (filter (has_code (code j)) (objects w)) = Some last ->
  CronJobLog.is_success last = false ->
  let deadline := CronJobLog.start_time last + Clock.timedelta_minutes delay in
  should_run_now false m w
  = (Return (now w >? deadline), set_user_time None m, w)
  /\ (now w <= deadline -> verdict (should_run_now false m w) = Return false)
  /\ (now w > deadline -> verdict (should_run_now false m w) = Return true).
Proof.
  intros Hj He Hd Hnz Hl Hf deadline.
  assert (E : should_run_now false m w
              = (Return (now w >? deadline), set_user_time None m, w)).
  { rewrite (should_run_now_unfold false m w j Hj).
    unfold interval_rule. rewrite He, Hl, Hd, Hf.
    apply Z.eqb_neq in Hnz. rewrite Hnz. reflexivity. }
  rewrite E. unfold verdict. cbn. repeat split; intros H.
  - f_equal. rewrite Z.gtb_ltb. apply Z.ltb_ge. lia.
  - f_equal. rewrite Z.gtb_ltb. apply Z.ltb_lt. lia.
Qed.

Lemma retry_window_decides_witness :
  let j := Sample.job (mkSchedule (Some 1) ["00:00"%string] (Some 30))
                      (Sample.returning "ok") in
  let m := set_cron_job j (__init__ (Class j) false) in
  let last := Sample.record (Sample.at_time 9 0) false None in
  let w := Sample.env [Sample.record (Sample.at_time 8 0) true None; last]
                      (Sample.at_time 9 30) in
  (30 <> 0
   /\ CronJobLog.latest (filter (has_code (code j)) (objects w)) = Some last
   /\ CronJobLog.is_success last = false
   /\ now w <= CronJobLog.start_time last + Clock.timedelta_minutes 30)
  /\ verdict (should_run_now false m w) = Return false.
Proof.
  intros j m last w.
  assert (Hnz : 30 <> 0) by discriminate.
  assert (Hnow : now w <= CronJobLog.start_time last + Clock.timedelta_minutes 30)
    by (vm_compute; discriminate).
  split; [repeat split; [exact Hnz | exact Hnow]|].
  exact (proj1 (proj2 (retry_window_decides m j w 1 30 last
                         eq_refl eq_refl eq_refl Hnz eq_refl eq_refl)) Hnow).
Defined.

Lemma filter_narrow {A} (P Q : A -> bool) (l : list A) :
  (forall x, P x = true -> Q x = true) ->
  filter P (filter Q l) = filter P l.
Proof.
  intros H. induction l as [|a l IH]; simpl; [reflexivity|].
  destruct (Q a) eqn:EQ; simpl.
  - rewrite IH. reflexivity.
  - destruct (P a) eqn:EP; [|exact IH].
    apply H in EP. congruence.
Qed.

(** The interval block once the latest record of the code is a success:
    the retry check is skipped. *)
Lemma interval_block_after_success
      (s : Schedule) (c : string) (w : World) (every : Z) (last : CronJobLog.t) :
  run_every_mins s = Some every ->
  CronJobLog.latest (filter (has_code c) (objects w)) = Some last ->
  CronJobLog.is_success last = true ->
  interval_rule s c w =
  match CronJobLog.latest
          (filter (fun r => has_code c r && CronJobLog.is_success r
                            && ran_at_time_isnull r) (objects w)) with
  | Some p =>
      if now w >? CronJobLog.start_time p + Clock.timedelta_minutes every
      then Some true else None
  | None => Some true
  end.
Proof.
  intros He Hl Hs. unfold interval_rule. rewrite He, Hl, Hs.
  destruct (retry_after_failure_mins s); reflexivity.
Qed.

(** C5, as the code has it: with an interval [every] set and the latest
    record of the code a success, [should_run_now] answers true as soon as
    the clock is strictly more than [every] minutes past the start of that
    record. Up to and including [every] minutes, provided that record
    carries no fixed-time tag, the interval block returns nothing and the
    decision falls to the fixed-time rule; it is false when the schedule
    has no fixed times. *)
Theorem interval_rule_after_success
        (m : CronJobManager) (j : CronJob) (w : World)
        (every : Z) (last : CronJobLog.t) :
  cron_job m = Some j ->
  run_every_mins (schedule j) = Some every ->
  CronJobLog.latest (filter (has_code (code j)) (objects w)) = Some last ->
  CronJobLog.is_success last = true ->
  let due := CronJobLog.start_time last + Clock.timedelta_minutes every in
  (now w > due ->
   should_run_now false m w = (Return true, set_user_time None m, w))
  /\ (now w <= due -> CronJobLog.ran_at_time last = None ->
      interval_rule (schedule j) (code j) w = None
      /\ (run_at_times (schedule j) = [] ->
          should_run_now false m w = (Return false, set_user_time None m, w))).
Proof.
  intros Hj He Hl Hs due.
  pose proof (interval_block_after_success _ _ _ _ _ He Hl Hs) as E.
  split.
  - intros Hnow. rewrite (should_run_now_unfold false m w j Hj), E.
    destruct (CronJobLog.latest (filter (fun r => _ && _ && _) _))
      as [p|] eqn:Ep; [|reflexivity].
    apply latest_In in Ep. apply filter_In in Ep. destruct Ep as [Hin HP].
    apply andb_prop in HP. destruct HP as [HP _].
    apply andb_prop in HP. destruct HP as [HP _].
    assert (Hp : In p (filter (has_code (code j)) (objects w)))
      by (apply filter_In; auto).
    pose proof (latest_max _ _ Hl _ Hp) as Hle.
    replace (now w >? _) with true; [reflexivity|].
    symmetry. rewrite Z.gtb_ltb. apply Z.ltb_lt. subst due. lia.
  - intros Hnow Htag.
    assert (I : interval_rule (schedule j) (code j) w = None).
    { rewrite E.
      rewrite <- (filter_narrow _ (has_code (code j))).
      2:{ intros x Hx. apply andb_prop in Hx. destruct Hx as [Hx _].
          apply andb_prop in Hx. tauto. }
      rewrite (latest_filter _ _ last Hl).
      2:{ rewrite Hs. unfold ran_at_time_isnull. rewrite Htag.
          apply latest_In in Hl. apply filter_In in Hl.
          destruct Hl as [_ ->]. reflexivity. }
      replace (now w >? _) with false; [reflexivity|].
      symmetry. rewrite Z.gtb_ltb. apply Z.ltb_ge. subst due. lia. }
    split; [exact I|].
    intros Hnil. rewrite (should_run_now_unfold false m w j Hj), I, Hnil.
    reflexivity.
Qed.

Lemma interval_rule_after_success_witness :
  let j := Sample.job (mkSchedule (Some 60) [] None) (Sample.returning "ok") in
  let m := set_cron_job j (__init__ (Class j) false) in
  let last := Sample.record (Sample.at_time 9 0) true None in
  let w := Sample.env [last] (Sample.at_time 10 0) in
  (CronJobLog.latest (filter (has_code (code j)) (objects w)) = Some last
   /\ CronJobLog.is_success last = true
   /\ now w <= CronJobLog.start_time last + Clock.timedelta_minutes 60
   /\ CronJobLog.ran_at_time last = None)
  /\ should_run_now false m w = (Return false, set_user_time None m, w).
Proof.
  intros j m last w.
  assert (Hnow : now w <= CronJobLog.start_time last + Clock.timedelta_minutes 60)
    by (vm_compute; discriminate).
  split; [repeat split; exact Hnow|].
  exact (proj2 (proj2 (interval_rule_after_success m j w 60 last
                         eq_refl eq_refl eq_refl eq_refl) Hnow eq_refl)
               eq_refl).
Defined.

(** C5 as worded fails in two ways, both with the latest record a success
    started less than the interval ago. First, the schedule also lists a
    fixed time: the interval block returns nothing and the fixed-time rule
    fires. Second, the latest record is tagged with a fixed time: the
    interval is measured from the latest untagged success, an older
    record. *)
Lemma interval_claim_counterexample :
  (let j := Sample.job (mkSchedule (Some 60) ["00:00"%string] None)
                       (Sample.returning "ok") in
   let m := set_cron_job j (__init__ (Class j) false) in
   let last := Sample.record (Sample.at_time 9 0) true None in
   let w := Sample.env [last] (Sample.at_time 9 1) in
   CronJobLog.latest (filter (has_code (code j)) (objects w)) = Some last
   /\ CronJobLog.is_success last = true
   /\ now w - CronJobLog.start_time last < Clock.timedelta_minutes 60
   /\ verdict (should_run_now false m w) = Return true)
  /\
  (let j := Sample.job (mkSchedule (Some 60) ["09:00"%string] None)
                       (Sample.returning "ok") in
   let m := set_cron_job j (__init__ (Class j) false) in
   let last := Sample.record (Sample.at_time 9 0) true (Some "09:00"%string) in
   let w := Sample.env [Sample.record (Sample.at_time 8 30) true None; last]
                       (Sample.at_time 9 31) in
   CronJobLog.latest (filter (has_code (code j)) (objects w)) = Some last
   /\ CronJobLog.is_success last = true
   /\ now w - CronJobLog.start_time last < Clock.timedelta_minutes 60
   /\ interval_rule (schedule j) (code j) w = Some true
   /\ verdict (should_run_now false m w) = Return true).
Proof.
  split; cbv zeta; repeat split; vm_compute; reflexivity.
Qed.

(** ** The fixed-time rule *)

Lemma hour_range (t : Z) : 0 <= Clock.hour t < 24.
Proof.
  unfold Clock.hour, Clock.usec_per_day, Clock.usec_per_hour.
  Z.div_mod_to_equations. lia.
Qed.

Lemma minute_range (t : Z) : 0 <= Clock.minute t < 60.
Proof.
  unfold Clock.minute, Clock.usec_per_minute, Clock.usec_per_hour.
  Z.div_mod_to_equations. lia.
Qed.

(** For a record that is not from the future, starting later than today's
    midnight is: starting on today's date, the very first instant of the
    day excepted. *)
Lemma started_today_same_date (w : World) (r : CronJobLog.t) :
  CronJobLog.start_time r <= now w ->
  (started_today w r <->
   Clock.today (CronJobLog.start_time r) = Clock.today (now w)
   /\ CronJobLog.start_time r <> Clock.today (now w)).
Proof.
  unfold started_today, Clock.today, Clock.usec_per_day.
  intros Hle. Z.div_mod_to_equations. lia.
Qed.

(** Printing the clock's hour and minute and parsing the text back gives
    those two numbers: checked on each of the 24 x 60 times of day. *)
Lemma reparses_all :
  forallb (fun h => forallb (reparses h) (seq 0 60)) (seq 0 24) = true.
Proof. vm_compute. reflexivity. Qed.

Lemma strptime_clock_text (h mi : Z) :
  0 <= h < 24 -> 0 <= mi < 60 ->
  Strptime.strptime (clock_text h mi) = Some (Strptime.make_struct_time h mi).
Proof.
  intros Hh Hm.
  pose proof reparses_all as H. rewrite forallb_forall in H.
  specialize (H (Z.to_nat h)). rewrite forallb_forall in H.
  assert (Hin : In (Z.to_nat h) (seq 0 24)) by (apply in_seq; lia).
  specialize (H Hin (Z.to_nat mi)).
  assert (Hin' : In (Z.to_nat mi) (seq 0 60)) by (apply in_seq; lia).
  specialize (H Hin'). unfold reparses in H.
  rewrite !Z2Nat.id in H by lia.
  destruct (Strptime.strptime (clock_text h mi)) as [st|]; [|discriminate].
  destruct (list_eq_dec Z.eq_dec st _) as [->|]; [reflexivity|discriminate].
Qed.

(** Against a slot on the hour, the comparison of the two [struct_time]s
    is a comparison of hours. *)
Lemma ge_on_the_hour (h mi slot : Z) :
  0 <= mi ->
  Strptime.ge (Strptime.make_struct_time h mi)
              (Strptime.make_struct_time slot 0) = (slot <=? h).
Proof.
  intros Hm. unfold Strptime.ge, Strptime.make_struct_time. cbn.
  destruct (Z.compare_spec h slot) as [->|Hlt|Hgt].
  - destruct (Z.compare_spec mi 0); try lia; subst; cbn;
      symmetry; apply Z.leb_le; lia.
  - symmetry. apply Z.leb_gt. lia.
  - symmetry. apply Z.leb_le. lia.
Qed.

Lemma filter_nil_iff {A} (P : A -> bool) (l : list A) :
  filter P l = [] <-> forall x, In x l -> P x = false.
Proof.
  induction l as [|a l IH]; simpl.
  - split; [intros _ x []|reflexivity].
  - destruct (P a) eqn:E; split.
    + discriminate.
    + intros H. specialize (H a (or_introl eq_refl)). congruence.
    + intros H x [<-|Hx]; [exact E|]. apply IH; assumption.
    + intros H. apply IH. intros x Hx. apply H. now right.
Qed.

Lemma ran_at_iff (slot : string) (r : CronJobLog.t) :
  ran_at slot r = true <-> CronJobLog.ran_at_time r = Some slot.
Proof.
  unfold ran_at. destruct (CronJobLog.ran_at_time r) as [t|].
  - rewrite String.eqb_eq. split; congruence.
  - split; discriminate.
Qed.

(** The loop over the single slot ["09:00"]: it fires exactly when the
    hour is 9 or later and the query of today's records is empty. *)
Lemma run_at_times_loop_0900 (c : string) (w : World) :
  run_at_times_loop c w ["09:00"%string] =
  if (9 <=? Clock.hour (now w))
  then match ran_today c "09:00" w with
       | [] => Return (Some "09:00"%string)
       | _ :: _ => Return None
       end
  else Return None.
Proof.
  unfold run_at_times_loop.
  change (Strptime.strptime "09:00") with (Some (Strptime.make_struct_time 9 0)).
  rewrite (strptime_clock_text _ _ (hour_range _) (minute_range _)).
  rewrite ge_on_the_hour by apply minute_range.
  destruct (9 <=? Clock.hour (now w)); [|reflexivity].
  destruct (ran_today c "09:00" w); reflexivity.
Qed.

(** C6: a schedule with no interval and the fixed times [["09:00"]].
    If the hour of the clock is 9 or later and the log holds no record of
    the code tagged ["09:00"] that started today, [should_run_now] answers
    true and leaves ["09:00"] as the matched slot. If the log holds such a
    record, it answers false (and no slot): the slot fires once a day. *)
Theorem fixed_time_fires_once_a_day
        (m : CronJobManager) (j : CronJob) (w : World) :
  cron_job m = Some j ->
  run_every_mins (schedule j) = None ->
  run_at_times (schedule j) = ["09:00"%string] ->
  (9 <= Clock.hour (now w) ->
   (forall r, In r (objects w) ->
              CronJobLog.code r = code j ->
              CronJobLog.ran_at_time r = Some "09:00"%string ->
              ~ started_today w r) ->
   should_run_now false m w
   = (Return true, set_user_time (Some "09:00"%string) m, w))
  /\
  (forall r, In r (objects w) ->
             CronJobLog.code r = code j ->
             CronJobLog.ran_at_time r = Some "09:00"%string ->
             started_today w r ->
             should_run_now false m w
             = (Return false, set_user_time None m, w)).
Proof.
  intros Hj He Ht.
  assert (I : interval_rule (schedule j) (code j) w = None)
    by (unfold interval_rule; now rewrite He).
  split.
  - intros Hh Hnone.
    rewrite (should_run_now_unfold false m w j Hj), I, Ht,
      run_at_times_loop_0900.
    apply Z.leb_le in Hh. rewrite Hh.
    assert (E : ran_today (code j) "09:00" w = []).
    { apply filter_nil_iff. intros r Hr.
      destruct (has_code (code j) r) eqn:Hc; [|reflexivity].
      destruct (ran_at "09:00" r) eqn:Ha; [|apply andb_false_r].
      apply String.eqb_eq in Hc. apply ran_at_iff in Ha.
      specialize (Hnone r Hr Hc Ha). unfold started_today in Hnone.
      cbn. rewrite andb_true_r. apply Z.ltb_ge. lia. }
    rewrite E. reflexivity.
  - intros r Hr Hc Ha Hs.
    rewrite (should_run_now_unfold false m w j Hj), I, Ht,
      run_at_times_loop_0900.
    assert (E : In r (ran_today (code j) "09:00" w)).
    { apply filter_In. split; [exact Hr|].
      apply String.eqb_eq in Hc. apply ran_at_iff in Ha.
      unfold has_code at 1. rewrite Hc, Ha.
      apply Z.ltb_lt in Hs. rewrite Hs. reflexivity. }
    destruct (9 <=? Clock.hour (now w)); [|reflexivity].
    destruct (ran_today (code j) "09:00" w); [destruct E|reflexivity].
Qed.

Lemma fixed_time_fires_once_a_day_witness :
  let j := Sample.job (mkSchedule None ["09:00"%string] None)
                      (Sample.returning "ok") in
  let m := set_cron_job j (__init__ (Class j) false) in
  let yesterday := Sample.record (Sample.at_time (-15) 0) true (Some "09:00"%string) in
  let today := Sample.record (Sample.at_time 9 0) true (Some "09:00"%string) in
  let w := Sample.env [yesterday] (Sample.at_time 9 30) in
  let w' := Sample.env [yesterday; today] (Sample.at_time 9 30) in
  (9 <= Clock.hour (now w) /\ ~ started_today w yesterday
   /\ started_today w' today)
  /\ should_run_now false m w
     = (Return true, set_user_time (Some "09:00"%string) m, w)
  /\ should_run_now false m w' = (Return false, set_user_time None m, w').
Proof.
  intros j m yesterday today w w'.
  assert (Hh : 9 <= Clock.hour (now w)) by (vm_compute; discriminate).
  assert (Hy : ~ started_today w yesterday)
    by (intros H; vm_compute in H; discriminate).
  assert (Ht : started_today w' today) by reflexivity.
  split; [repeat split; assumption|]. split.
  - apply (proj1 (fixed_time_fires_once_a_day m j w eq_refl eq_refl eq_refl) Hh).
    intros r [<-|[]] _ _. exact Hy.
  - apply (proj2 (fixed_time_fires_once_a_day m j w' eq_refl eq_refl eq_refl)
                 today); [right; left| | |]; reflexivity || exact Ht.
Defined.

(** ** Strings *)

Lemma length_append (a b : string) :
  String.length (a ++ b) = (String.length a + String.length b)%nat.
Proof. induction a as [|c a IH]; simpl; [reflexivity|now rewrite IH]. Qed.

Lemma length_drop (n : nat) (s : string) :
  String.length (PyStr.drop n s) = (String.length s - n)%nat.
Proof.
  revert s. induction n as [|n IH]; intros s; simpl.
  - now rewrite Nat.sub_0_r.
  - destruct s as [|c s]; simpl; [reflexivity|apply IH].
Qed.

Lemma drop_is_suffix (n : nat) (s : string) :
  exists head, s = (head ++ PyStr.drop n s)%string.
Proof.
  revert s. induction n as [|n IH]; intros s; simpl.
  - exists EmptyString. reflexivity.
  - destruct s as [|c s].
    + exists EmptyString. reflexivity.
    + destruct (IH s) as [h Hh]. exists (String c h). simpl. now rewrite <- Hh.
Qed.

(** [s[-k:]] of a text longer than [k] is its last [k] characters. *)
Lemma slice_from_tail (s : string) (k : nat) :
  (0 < k <= String.length s)%nat ->
  String.length (PyStr.slice_from s (- Z.of_nat k)) = k
  /\ exists head, s = (head ++ PyStr.slice_from s (- Z.of_nat k))%string.
Proof.
  intros Hk. unfold PyStr.slice_from, PyStr.len.
  replace (- Z.of_nat k <? 0) with true by (symmetry; apply Z.ltb_lt; lia).
  split.
  - rewrite length_drop. lia.
  - apply drop_is_suffix.
Qed.

(** ** Leaving the [with] block *)

(** [__exit__] on a manager whose [cron_log] and [msg] are bound. *)
Lemma __exit___unfold (ex : option PyExc) (m : CronJobManager) (w : World)
      (cl : CronJobLog.t) (cron_msg : option string) :
  cron_log m = Some cl ->
  msg m = Some cron_msg ->
  let r := exit_record m cl cron_msg ex (now w) in
  __exit__ ex m w
  = (Return true, set_cron_log r m,
     exit_world (exit_logs (silent m) cron_msg ex) r w).
Proof.
  intros Hl Hm r. subst r. unfold __exit__, exit_world, exit_record, exit_logs.
  run_py. rewrite Hl, Hm. unfold logger, save.
  destruct ex as [e|]; cbn;
    [destruct (silent m); cbn;
     [|destruct cron_msg as [text|]; cbn; [destruct (PyStr.truthy text); cbn|]]|];
    destruct (save_error w) eqn:Es; cbn;
    rewrite ?Es, ?app_nil_r, <- ?app_assoc; reflexivity.
Qed.

(** [__exit__] on a manager whose [msg] was never assigned. *)
Lemma __exit___without_msg (ex : option PyExc) (m : CronJobManager) (w : World)
      (cl : CronJobLog.t) :
  cron_log m = Some cl ->
  msg m = None ->
  __exit__ ex m w = (Raise (AttributeError "msg"), m, w).
Proof.
  intros Hl Hm. unfold __exit__. run_py. rewrite Hl, Hm. reflexivity.
Qed.

(** C4: an exception whose formatted detail is longer than 1000
    characters reaches [__exit__] on a manager holding a status message of
    50 characters. The record [__exit__] fills (and stores, when the
    storage takes it) is a failure whose message is the status message,
    the separator and the last 945 characters of the detail: 1000
    characters in all. *)
Theorem failure_message_keeps_tail
        (m : CronJobManager) (w : World) (cl : CronJobLog.t)
        (text : string) (e : PyExc) :
  cron_log m = Some cl ->
  msg m = Some (Some text) ->
  String.length text = 50%nat ->
  (1000 < String.length (format_exception e))%nat ->
  exists head tail r m' w',
    format_exception e = (head ++ tail)%string
    /\ String.length tail = 945%nat
    /\ __exit__ (Some e) m w = (Return true, m', w')
    /\ cron_log m' = Some r
    /\ CronJobLog.is_success r = false
    /\ CronJobLog.message r = Some (text ++ PyStr.ellipsis ++ tail)%string
    /\ String.length (text ++ PyStr.ellipsis ++ tail) = 1000%nat
    /\ (save_error w = None -> objects w' = objects w ++ [r]).
Proof.
  intros Hl Hm Hlen Hlong.
  destruct (slice_from_tail (format_exception e) 945) as [Ht [head Hh]]; [lia|].
  assert (Hf : failure_message (Some text) (format_exception e)
               = (text ++ PyStr.ellipsis
                  ++ PyStr.slice_from (format_exception e) (- Z.of_nat 945))%string).
  { unfold failure_message.
    destruct text as [|c text]; [discriminate|]. cbn [PyStr.truthy].
    unfold PyStr.len at 1 2. rewrite Hlen. reflexivity. }
  exists head, (PyStr.slice_from (format_exception e) (- Z.of_nat 945)).
  exists (exit_record m cl (Some text) (Some e) (now w)).
  eexists. eexists.
  split; [exact Hh|]. split; [exact Ht|].
  split; [apply (__exit___unfold (Some e) m w cl (Some text) Hl Hm)|].
  split; [reflexivity|]. split; [reflexivity|].
  split; [unfold exit_record; cbn [CronJobLog.message]; now rewrite Hf|].
  split.
  - rewrite !length_append, Hlen, Ht. reflexivity.
  - intros Hs. unfold exit_world. rewrite Hs. reflexivity.
Qed.

Lemma failure_message_keeps_tail_witness :
  let j := Sample.job (mkSchedule (Some 60) [] None)
                      (Sample.failing Sample.trace1200) in
  let m := Sample.entered j false Sample.status50 (Sample.at_time 9 0) in
  let w := Sample.env [] (Sample.at_time 9 1) in
  let e := JobError Sample.trace1200 in
  (String.length Sample.status50 = 50%nat
   /\ (1000 < String.length (format_exception e))%nat)
  /\ exists head tail r m' w',
      format_exception e = (head ++ tail)%string
      /\ String.length tail = 945%nat
      /\ __exit__ (Some e) m w = (Return true, m', w')
      /\ cron_log m' = Some r
      /\ CronJobLog.is_success r = false
      /\ CronJobLog.message r
         = Some (Sample.status50 ++ PyStr.ellipsis ++ tail)%string
      /\ String.length (Sample.status50 ++ PyStr.ellipsis ++ tail) = 1000%nat
      /\ (save_error w = None -> objects w' = objects w ++ [r]).
Proof.
  intros j m w e.
  assert (H50 : String.length Sample.status50 = 50%nat) by reflexivity.
  assert (Hlong : (1000 < String.length (format_exception e))%nat)
    by (apply Nat.ltb_lt; vm_compute; reflexivity).
  split; [split; assumption|].
  exact (failure_message_keeps_tail m w _ Sample.status50 e
           eq_refl eq_refl H50 Hlong).
Defined.

(** ** [run] and the [with] statement *)

(** The answer of [should_run_now] depends on the manager only through
    the job bound to it, and the slot it leaves does too. *)
Lemma should_run_now_true (force : bool) (m : CronJobManager) (j : CronJob)
      (w : World) :
  cron_job m = Some j ->
  verdict (should_run_now force m w) = Return true ->
  exists u, forall m', cron_job m' = Some j ->
    should_run_now force m' w = (Return true, set_user_time u m', w).
Proof.
  intros Hj Hv. rewrite (should_run_now_unfold force m w j Hj) in Hv.
  destruct force.
  - exists None. intros m' Hj'.
    now rewrite (should_run_now_unfold true m' w j Hj').
  - destruct (interval_rule (schedule j) (code j) w) as [b|] eqn:I.
    + cbn in Hv. inversion Hv; subst. exists None. intros m' Hj'.
      now rewrite (should_run_now_unfold false m' w j Hj'), I.
    + destruct (run_at_times_loop (code j) w (run_at_times (schedule j)))
        as [[t|]|e] eqn:L; cbn in Hv; try discriminate.
      exists (Some t). intros m' Hj'.
      now rewrite (should_run_now_unfold false m' w j Hj'), I, L.
Qed.

(** [run] on a job class, once [should_run_now] has answered true. *)
Lemma run_unfold (force : bool) (m : CronJobManager) (w : World)
      (c : CronJob) (u : option string) :
  cron_job_class m = Class c ->
  is_cron_job c = true ->
  should_run_now force (set_cron_job c m) w
  = (Return true, set_user_time u (set_cron_job c m), w) ->
  run force m w =
  match do c (announced c w) with
  | (Returns v, w') =>
      (Return tt, set_msg v (set_user_time u (set_cron_job c m)), w')
  | (Raises t, w') =>
      (Raise (JobError t), set_user_time u (set_cron_job c m), w')
  end.
Proof.
  intros Hc Hs Hgo. unfold run, bind at 1, self. rewrite Hc, Hs.
  cbn [negb]. unfold bind at 1, setattr at 1. unfold bind at 1.
  rewrite Hgo.
  unfold bind, logger, call_do, setattr, announced. cbn.
  destruct (do c _) as [[v|t] w']; reflexivity.
Qed.

Lemma __enter___unfold (m : CronJobManager) (w : World) (c : CronJob) :
  cron_job_class m = Class c ->
  __enter__ m w
  = (Return tt, set_cron_log (CronJobLog.create (code c) (now w)) m, w).
Proof. intros Hc. unfold __enter__. run_py. now rewrite Hc. Qed.

(** The [with] statement around [run] for a job class whose decision is
    to run: what the job body yields decides between the two exits. *)
Lemma with_run_unfold (force : bool) (m : CronJobManager) (w : World)
      (c : CronJob) :
  cron_job_class m = Class c ->
  is_cron_job c = true ->
  verdict (should_run_now force (set_cron_job c m) w) = Return true ->
  exists u,
    let m1 := set_user_time u
                (set_cron_job c
                   (set_cron_log (CronJobLog.create (code c) (now w)) m)) in
    should_run_now force (set_cron_job c m) w
    = (Return true, set_user_time u (set_cron_job c m), w)
    /\ with_run force m w =
       match do c (announced c w) with
       | (Returns v, w') =>
           match __exit__ None (set_msg v m1) w' with
           | (Return _, m3, w3) => (Return tt, m3, w3)
           | (Raise e', m3, w3) => (Raise e', m3, w3)
           end
       | (Raises t, w') =>
           match __exit__ (Some (JobError t)) m1 w' with
           | (Return true, m3, w3) => (Return tt, m3, w3)
           | (Return false, m3, w3) => (Raise (JobError t), m3, w3)
           | (Raise e', m3, w3) => (Raise e', m3, w3)
           end
       end.
Proof.
  intros Hc Hs Hv.
  destruct (should_run_now_true force (set_cron_job c m) c w eq_refl Hv)
    as [u Hu].
  exists u. cbv zeta. split; [apply Hu; reflexivity|].
  unfold with_run. rewrite (__enter___unfold m w c Hc).
  set (m0 := set_cron_log (CronJobLog.create (code c) (now w)) m).
  rewrite (run_unfold force m0 w c u Hc Hs (Hu (set_cron_job c m0) eq_refl)).
  destruct (do c (announced c w)) as [[v|t] w']; reflexivity.
Qed.

(** A job body that returns: the [with] statement ends normally and
    [__exit__] has filled one success record, stored unless the storage
    refuses it. *)
Lemma with_run_success (force : bool) (m : CronJobManager) (w w' : World)
      (c : CronJob) (v : option string) :
  cron_job_class m = Class c ->
  is_cron_job c = true ->
  verdict (should_run_now force (set_cron_job c m) w) = Return true ->
  do c (announced c w) = (Returns v, w') ->
  exists r m3,
    with_run force m w = (Return tt, m3, exit_world [] r w')
    /\ cron_log m3 = Some r
    /\ CronJobLog.code r = code c
    /\ CronJobLog.start_time r = now w
    /\ CronJobLog.end_time r = Some (now w')
    /\ CronJobLog.is_success r = true
    /\ CronJobLog.message r = v
    /\ (save_error w' = None ->
        objects (exit_world [] r w') = objects w' ++ [r]).
Proof.
  intros Hc Hs Hv Hdo.
  destruct (with_run_unfold force m w c Hc Hs Hv) as [u [_ E]].
  cbv zeta in E. rewrite Hdo in E.
  match type of E with
  | context [__exit__ ?ex ?mm ?ww] =>
      rewrite (__exit___unfold ex mm ww
                 (CronJobLog.create (code c) (now w)) v eq_refl eq_refl) in E
  end.
  eexists. eexists. split; [exact E|].
  repeat split. intros Hok. unfold exit_world. now rewrite Hok.
Qed.

(** C1, as the code has it: the job body raises inside the [with]
    statement of a manager whose [msg] attribute is bound. The statement
    ends normally; [__exit__] has filled a failure record for the code,
    started when the block was entered, whose message is built from the
    trace; the record is stored when the storage takes it, and the trace
    is logged as an error unless the manager is silent. *)
Theorem failure_is_absorbed (force : bool) (m : CronJobManager) (w w' : World)
        (c : CronJob) (cron_msg : option string) (trace : string) :
  cron_job_class m = Class c ->
  is_cron_job c = true ->
  msg m = Some cron_msg ->
  verdict (should_run_now force (set_cron_job c m) w) = Return true ->
  do c (announced c w) = (Raises trace, w') ->
  exists r m3 w3,
    with_run force m w = (Return tt, m3, w3)
    /\ cron_log m3 = Some r
    /\ CronJobLog.code r = code c
    /\ CronJobLog.start_time r = now w
    /\ CronJobLog.is_success r = false
    /\ CronJobLog.message r = Some (failure_message cron_msg trace)
    /\ (save_error w' = None -> objects w3 = objects w' ++ [r])
    /\ (silent m = false -> In (ERROR, trace) (logged w3)).
Proof.
  intros Hc Hs Hm Hv Hdo.
  destruct (with_run_unfold force m w c Hc Hs Hv) as [u [_ E]].
  cbv zeta in E. rewrite Hdo in E.
  match type of E with
  | context [__exit__ ?ex ?mm ?ww] =>
      rewrite (__exit___unfold ex mm ww
                 (CronJobLog.create (code c) (now w)) cron_msg eq_refl Hm) in E
  end.
  eexists. eexists. eexists. split; [exact E|].
  repeat split.
  - intros Hok. unfold exit_world. now rewrite Hok.
  - intros Hq. unfold exit_world, exit_logs. cbn [silent set_user_time set_cron_job set_cron_log].
    rewrite Hq.
    destruct (save_error w'); cbn [logged]; rewrite ?in_app_iff; cbn; tauto.
Qed.

(** C2 on the code: the job body raises inside the [with] statement of a
    manager whose [msg] attribute was never assigned, as on any manager
    fresh from [__init__]. [__exit__] fails on reading [self.msg]: the
    statement ends with [AttributeError] and the environment is the one
    the job body left, the run log without a new record. *)
Theorem failed_run_leaves_no_record
        (force : bool) (m : CronJobManager) (w w' : World)
        (c : CronJob) (trace : string) :
  cron_job_class m = Class c ->
  is_cron_job c = true ->
  msg m = None ->
  verdict (should_run_now force (set_cron_job c m) w) = Return true ->
  do c (announced c w) = (Raises trace, w') ->
  verdict (with_run force m w) = Raise (AttributeError "msg")
  /\ world_after (with_run force m w) = w'
  /\ objects (world_after (with_run force m w)) = objects w'.
Proof.
  intros Hc Hs Hm Hv Hdo.
  destruct (with_run_unfold force m w c Hc Hs Hv) as [u [_ E]].
  cbv zeta in E. rewrite Hdo in E.
  match type of E with
  | context [__exit__ ?ex ?mm ?ww] =>
      rewrite (__exit___without_msg ex mm ww
                 (CronJobLog.create (code c) (now w)) eq_refl Hm) in E
  end.
  rewrite E. repeat split.
Qed.

Lemma failure_is_absorbed_witness :
  let c := Sample.job (mkSchedule (Some 60) [] None)
                      (Sample.failing "Traceback: boom") in
  let m := set_msg (Some "half done"%string) (__init__ (Class c) false) in
  let w := Sample.env [] (Sample.at_time 9 0) in
  verdict (should_run_now false (set_cron_job c m) w) = Return true
  /\ exists r m3 w3,
      with_run false m w = (Return tt, m3, w3)
      /\ cron_log m3 = Some r
      /\ CronJobLog.code r = code c
      /\ CronJobLog.start_time r = now w
      /\ CronJobLog.is_success r = false
      /\ CronJobLog.message r
         = Some (failure_message (Some "half done"%string) "Traceback: boom")
      /\ (save_error (announced c w) = None ->
          objects w3 = objects (announced c w) ++ [r])
      /\ (silent m = false -> In (ERROR, "Traceback: boom"%string) (logged w3)).
Proof.
  intros c m w. split; [reflexivity|].
  exact (failure_is_absorbed false m w (announced c w) c
           (Some "half done"%string) "Traceback: boom"
           eq_refl eq_refl eq_refl eq_refl eq_refl).
Defined.

(** C1 as worded fails on a silent manager: the failure of the job body is
    absorbed and recorded, but the logger receives nothing about it (its
    only entry is the debug line [run] wrote before calling the body). *)
Lemma silent_failure_counterexample :
  let c := Sample.job (mkSchedule (Some 60) [] None)
                      (Sample.failing "Traceback: boom") in
  let m := set_msg (Some "half done"%string) (__init__ (Class c) true) in
  let w := Sample.env [] (Sample.at_time 9 0) in
  do c (announced c w) = (Raises "Traceback: boom", announced c w)
  /\ verdict (with_run false m w) = Return tt
  /\ logged (world_after (with_run false m w))
     = [(DEBUG, "Running cron: <ReportsDaily> code reports.daily"%string)].
Proof. cbv zeta. repeat split. Qed.

Lemma failed_run_leaves_no_record_witness :
  let c := Sample.job (mkSchedule (Some 60) [] None)
                      (Sample.failing "Traceback: boom") in
  let m := __init__ (Class c) false in
  let w := Sample.env [] (Sample.at_time 9 0) in
  (msg m = None
   /\ verdict (should_run_now true (set_cron_job c m) w) = Return true
   /\ do c (announced c w) = (Raises "Traceback: boom", announced c w))
  /\ verdict (with_run true m w) = Raise (AttributeError "msg")
  /\ world_after (with_run true m w) = announced c w
  /\ objects (world_after (with_run true m w)) = objects (announced c w).
Proof.
  intros c m w. split; [repeat split|].
  exact (failed_run_leaves_no_record true m w (announced c w) c
           "Traceback: boom" eq_refl eq_refl eq_refl eq_refl eq_refl).
Defined.

(** ** The matched slot *)

(** C10: [should_run_now] resets [user_time] before it tries any rule, so
    whatever slot an earlier call left on the manager is gone. A slot is
    on the manager afterwards only if the fixed-time loop matched it in
    this very call. When the force flag or the interval block (retry,
    interval elapsed, no history) takes the decision, [user_time] is
    [None] afterwards, and the record [__exit__] then fills from a manager
    carrying that [user_time] has no [ran_at_time]. *)
Theorem slot_never_carries_over
        (force : bool) (m : CronJobManager) (j : CronJob) (w : World) :
  cron_job m = Some j ->
  (forall t,
      user_time (manager_after (should_run_now force m w)) = Some (Some t) ->
      force = false
      /\ interval_rule (schedule j) (code j) w = None
      /\ run_at_times_loop (code j) w (run_at_times (schedule j))
         = Return (Some t))
  /\
  (force = true \/ (exists b, interval_rule (schedule j) (code j) w = Some b) ->
   user_time (manager_after (should_run_now force m w)) = Some None
   /\ forall ex m' w' cl cron_msg,
       user_time m' = user_time (manager_after (should_run_now force m w)) ->
       cron_log m' = Some cl ->
       msg m' = Some cron_msg ->
       exists r,
         cron_log (manager_after (__exit__ ex m' w')) = Some r
         /\ CronJobLog.ran_at_time r = None
         /\ (save_error w' = None ->
             objects (world_after (__exit__ ex m' w')) = objects w' ++ [r])).
Proof.
  intros Hj. rewrite (should_run_now_unfold force m w j Hj). split.
  - intros t. destruct force; [discriminate|].
    destruct (interval_rule (schedule j) (code j) w) as [b|]; [discriminate|].
    destruct (run_at_times_loop (code j) w (run_at_times (schedule j)))
      as [[t'|]|e]; cbn; intros H; inversion H; subst; auto.
  - intros Hrule.
    assert (Hu : user_time
                   (manager_after
                      (if force then (Return true, set_user_time None m, w)
                       else match interval_rule (schedule j) (code j) w with
                            | Some b => (Return b, set_user_time None m, w)
                            | None =>
                                match run_at_times_loop (code j) w
                                        (run_at_times (schedule j)) with
                                | Return (Some time_data) =>
                                    (Return true,
                                     set_user_time (Some time_data) m, w)
                                | Return None =>
                                    (Return false, set_user_time None m, w)
                                | Raise e => (Raise e, set_user_time None m, w)
                                end
                            end)) = Some None).
    { destruct force; [reflexivity|].
      destruct Hrule as [Hf|[b Hb]]; [discriminate|]. now rewrite Hb. }
    split; [exact Hu|].
    intros ex m' w' cl cron_msg Hm' Hl Hmsg. rewrite Hu in Hm'.
    rewrite (__exit___unfold ex m' w' cl cron_msg Hl Hmsg).
    eexists. split; [reflexivity|]. split.
    + unfold exit_record. cbn. now rewrite Hm'.
    + intros Hok. unfold world_after, exit_world. cbn. now rewrite Hok.
Qed.

Lemma slot_never_carries_over_witness :
  let j := Sample.job (mkSchedule (Some 60) ["09:00"%string] None)
                      (Sample.returning "ok") in
  let stale := set_user_time (Some "09:00"%string)
                 (Sample.entered j false "ok" (Sample.at_time 9 0)) in
  let w := Sample.env [Sample.record (Sample.at_time 9 0) true
                         (Some "09:00"%string)]
                      (Sample.at_time 9 30) in
  (user_time stale = Some (Some "09:00"%string)
   /\ interval_rule (schedule j) (code j) w = Some true)
  /\ user_time (manager_after (should_run_now false stale w)) = Some None.
Proof.
  intros j stale w. split; [split; reflexivity|].
  refine (proj1 (proj2 (slot_never_carries_over false stale j w eq_refl) _)).
  right. exists true. reflexivity.
Defined.

(** ** The fixed-time slot across two calls *)

Lemma past_nine_is_past_midnight (t : Z) :
  9 <= Clock.hour t -> Clock.today t < t.
Proof.
  unfold Clock.hour, Clock.today, Clock.usec_per_day, Clock.usec_per_hour.
  intros H. Z.div_mod_to_equations. lia.
Qed.

(** The slot ["09:00"] fires, the job body returns and the record is
    stored: asked again later the same day, on the same manager, the
    answer is false. *)
Lemma fixed_0900_decision (m : CronJobManager) (j : CronJob) (w : World) :
  cron_job m = Some j ->
  run_every_mins (schedule j) = None ->
  run_at_times (schedule j) = ["09:00"%string] ->
  should_run_now false m w =
  if 9 <=? Clock.hour (now w)
  then match ran_today (code j) "09:00" w with
       | [] => (Return true, set_user_time (Some "09:00"%string) m, w)
       | _ :: _ => (Return false, set_user_time None m, w)
       end
  else (Return false, set_user_time None m, w).
Proof.
  intros Hj He Ht.
  rewrite (should_run_now_unfold false m w j Hj).
  unfold interval_rule. rewrite He, Ht, run_at_times_loop_0900.
  destruct (9 <=? Clock.hour (now w)); [|reflexivity].
  destruct (ran_today (code j) "09:00" w); reflexivity.
Qed.

Lemma fixed_time_run_then_skip
      (m : CronJobManager) (w w' : World) (c : CronJob) (v : option string) :
  cron_job_class m = Class c ->
  is_cron_job c = true ->
  run_every_mins (schedule c) = None ->
  run_at_times (schedule c) = ["09:00"%string] ->
  9 <= Clock.hour (now w) ->
  (forall r, In r (objects w) ->
             CronJobLog.code r = code c ->
             CronJobLog.ran_at_time r = Some "09:00"%string ->
             ~ started_today w r) ->
  do c (announced c w) = (Returns v, w') ->
  save_error w' = None ->
  Clock.today (now w') = Clock.today (now w) ->
  exists m3 w3,
    with_run false m w = (Return tt, m3, w3)
    /\ List.length (objects w3) = S (List.length (objects w'))
    /\ should_run_now false m3 w3 = (Return false, set_user_time None m3, w3).
Proof.
  intros Hc Hs He Ht Hh Hnone Hdo Hok Hday.
  assert (Hnil : ran_today (code c) "09:00" w = []).
  { apply filter_nil_iff. intros r Hr.
    destruct (has_code (code c) r) eqn:Hcode; [|reflexivity].
    destruct (ran_at "09:00" r) eqn:Ha; [|apply andb_false_r].
    apply String.eqb_eq in Hcode. apply ran_at_iff in Ha.
    specialize (Hnone r Hr Hcode Ha). unfold started_today in Hnone.
    cbn. rewrite andb_true_r. apply Z.ltb_ge. lia. }
  assert (Hgo : should_run_now false (set_cron_job c m) w
                = (Return true,
                   set_user_time (Some "09:00"%string) (set_cron_job c m), w)).
  { rewrite (fixed_0900_decision (set_cron_job c m) c w eq_refl He Ht), Hnil.
    apply Z.leb_le in Hh. now rewrite Hh. }
  assert (Hv : verdict (should_run_now false (set_cron_job c m) w) = Return true)
    by now rewrite Hgo.
  destruct (with_run_unfold false m w c Hc Hs Hv) as [u [Hu E]].
  rewrite Hgo in Hu.
  assert (Hslot : u = Some "09:00"%string).
  { assert (H : Some u = Some (Some "09:00"%string))
      by (change (user_time (set_user_time u (set_cron_job c m))
                  = Some (Some "09:00"%string)); inversion Hu; reflexivity).
    now inversion H. }
  subst u. cbv zeta in E. rewrite Hdo in E.
  match type of E with
  | context [__exit__ ?ex ?mm ?ww] =>
      rewrite (__exit___unfold ex mm ww
                 (CronJobLog.create (code c) (now w)) v eq_refl eq_refl) in E
  end.
  eexists. eexists. split; [exact E|].
  unfold exit_world. rewrite Hok. cbn [objects].
  split; [rewrite length_app; cbn; lia|].
  match goal with
  | |- should_run_now false ?m3 ?w3 = _ =>
      rewrite (fixed_0900_decision m3 c w3 eq_refl He Ht)
  end.
  destruct (9 <=? _); [|reflexivity].
  match goal with
  | |- context [ran_today ?cc ?tt ?ww] =>
      destruct (ran_today cc tt ww) eqn:Eq; [|reflexivity];
      assert (Hin : In (exit_record
                          (set_msg v
                             (set_user_time (Some "09:00"%string)
                                (set_cron_job c
                                   (set_cron_log
                                      (CronJobLog.create (code c) (now w)) m))))
                          (CronJobLog.create (code c) (now w)) v None (now w'))
                       (ran_today cc tt ww))
  end.
  { apply filter_In. split.
    - cbn [objects]. apply in_or_app. right. left. reflexivity.
    - unfold has_code, ran_at, exit_record.
      cbn [CronJobLog.code CronJobLog.create CronJobLog.start_time
           CronJobLog.ran_at_time user_time set_msg set_user_time now].
      rewrite !String.eqb_refl, Hday.
      pose proof (past_nine_is_past_midnight (now w) Hh) as Hlt.
      apply Z.ltb_lt in Hlt. rewrite Hlt. reflexivity. }
  rewrite Eq in Hin. destruct Hin.
Qed.

(** * Further properties of the decision *)

(** A code without history: with an interval set and no record of the
    code in the log, [should_run_now] answers true with no slot, whatever
    the retry delay and the fixed times. *)
Theorem no_history_runs
        (m : CronJobManager) (j : CronJob) (w : World) (every : Z) :
  cron_job m = Some j ->
  run_every_mins (schedule j) = Some every ->
  (forall r, In r (objects w) -> CronJobLog.code r <> code j) ->
  should_run_now false m w = (Return true, set_user_time None m, w).
Proof.
  intros Hj He Hno.
  assert (Hnil : filter (has_code (code j)) (objects w) = []).
  { apply filter_nil_iff. intros r Hr. unfold has_code.
    apply String.eqb_neq. apply Hno. exact Hr. }
  rewrite (should_run_now_unfold false m w j Hj).
  unfold interval_rule. rewrite He, Hnil. cbn.
  rewrite <- (filter_narrow _ (has_code (code j))).
  - rewrite Hnil. reflexivity.
  - intros x Hx. apply andb_prop in Hx. destruct Hx as [Hx _].
    apply andb_prop in Hx. tauto.
Qed.

Lemma no_history_runs_witness :
  let j := Sample.job (mkSchedule (Some 60) ["23:59"%string] (Some 5))
                      (Sample.returning "ok") in
  let m := set_cron_job j (__init__ (Class j) false) in
  let other := CronJobLog.mk "other.job" (Sample.at_time 8 0)
                 (Some (Sample.at_time 8 1)) false (Some EmptyString) None in
  let w := Sample.env [other] (Sample.at_time 8 2) in
  CronJobLog.code other <> code j
  /\ should_run_now false m w = (Return true, set_user_time None m, w).
Proof.
  intros j m other w.
  assert (Hne : CronJobLog.code other <> code j) by discriminate.
  split; [exact Hne|].
  apply (no_history_runs m j w 60 eq_refl eq_refl).
  intros r [<-|[]]. exact Hne.
Defined.

(** A retry delay of zero is no retry delay: the test of line 68 takes the
    number for its truth value, so a schedule with
    [retry_after_failure_mins = 0] decides as the same schedule without
    one, a failed latest record included. *)
Theorem zero_retry_is_no_retry
        (force : bool) (m : CronJobManager) (w : World)
        (sub : bool) (c text : string) (body : World -> DoResult * World)
        (every : option Z) (times : list string) :
  let with_zero := mkCronJob sub c (mkSchedule every times (Some 0)) text body in
  let without := mkCronJob sub c (mkSchedule every times None) text body in
  interval_rule (schedule with_zero) c w = interval_rule (schedule without) c w
  /\ verdict (should_run_now force (set_cron_job with_zero m) w)
     = verdict (should_run_now force (set_cron_job without m) w)
  /\ user_time (manager_after (should_run_now force (set_cron_job with_zero m) w))
     = user_time (manager_after (should_run_now force (set_cron_job without m) w)).
Proof.
  intros with_zero without.
  assert (I : interval_rule (schedule with_zero) c w
              = interval_rule (schedule without) c w).
  { unfold interval_rule. cbn. destruct every as [e|]; [|reflexivity].
    destruct (CronJobLog.latest (filter (has_code c) (objects w))) as [lj|];
      [|reflexivity].
    rewrite andb_false_r. reflexivity. }
  split; [exact I|].
  rewrite (should_run_now_unfold force (set_cron_job with_zero m) w with_zero eq_refl).
  rewrite (should_run_now_unfold force (set_cron_job without m) w without eq_refl).
  destruct force; [split; reflexivity|].
  change (code with_zero) with c. change (code without) with c. rewrite I.
  destruct (interval_rule (schedule without) c w); [split; reflexivity|].
  change (run_at_times (schedule with_zero)) with times.
  change (run_at_times (schedule without)) with times.
  destruct (run_at_times_loop c w times) as [[t|]|e]; split; reflexivity.
Qed.

(** A schedule with neither interval nor fixed times never runs unless
    forced. *)
Theorem empty_schedule_never_runs
        (m : CronJobManager) (j : CronJob) (w : World) :
  cron_job m = Some j ->
  run_every_mins (schedule j) = None ->
  run_at_times (schedule j) = [] ->
  should_run_now false m w = (Return false, set_user_time None m, w)
  /\ should_run_now true m w = (Return true, set_user_time None m, w).
Proof.
  intros Hj He Ht. split.
  - rewrite (should_run_now_unfold false m w j Hj).
    unfold interval_rule. rewrite He, Ht. reflexivity.
  - now rewrite (should_run_now_unfold true m w j Hj).
Qed.

Lemma empty_schedule_never_runs_witness :
  let j := Sample.job (mkSchedule None [] (Some 5)) (Sample.returning "ok") in
  let m := set_cron_job j (__init__ (Class j) false) in
  let w := Sample.env [Sample.record (Sample.at_time 1 0) false None]
                      (Sample.at_time 23 0) in
  should_run_now false m w = (Return false, set_user_time None m, w)
  /\ should_run_now true m w = (Return true, set_user_time None m, w).
Proof.
  intros j m w.
  exact (empty_schedule_never_runs m j w eq_refl eq_refl eq_refl).
Defined.

(** A fixed time that does not parse is found out when the decision
    reaches it, not when the schedule is built: if the interval block
    leaves the decision open and the first fixed time is not of the form
    hour:minute, [should_run_now] raises [ValueError]. *)
Theorem malformed_slot_raises
        (m : CronJobManager) (j : CronJob) (w : World)
        (time_data : string) (rest : list string) :
  cron_job m = Some j ->
  interval_rule (schedule j) (code j) w = None ->
  run_at_times (schedule j) = time_data :: rest ->
  Strptime.strptime time_data = None ->
  should_run_now false m w
  = (Raise (ValueError time_data), set_user_time None m, w).
Proof.
  intros Hj I Ht Hbad.
  rewrite (should_run_now_unfold false m w j Hj), I, Ht.
  cbn [run_at_times_loop]. rewrite Hbad. reflexivity.
Qed.

Lemma malformed_slot_raises_witness :
  let j := Sample.job (mkSchedule None ["24:00"%string; "09:00"%string] None)
                      (Sample.returning "ok") in
  let m := set_cron_job j (__init__ (Class j) false) in
  let w := Sample.env [] (Sample.at_time 10 0) in
  Strptime.strptime "24:00" = None
  /\ should_run_now false m w
     = (Raise (ValueError "24:00"), set_user_time None m, w).
Proof.
  intros j m w. split; [reflexivity|].
  exact (malformed_slot_raises m j w "24:00" ["09:00"%string]
           eq_refl eq_refl eq_refl eq_refl).
Defined.

(** * Further properties of the fixed-time rule *)

Lemma actual_time_parses_aux (w : World) :
  Strptime.strptime (clock_text (Clock.hour (now w)) (Clock.minute (now w)))
  = Some (Strptime.make_struct_time (Clock.hour (now w)) (Clock.minute (now w))).
Proof. apply strptime_clock_text; [apply hour_range|apply minute_range]. Qed.

(** The text line 87 builds from the clock always parses, to the clock's
    own hour and minute: [actual_time] never raises. *)
Theorem actual_time_always_parses (t : Z) :
  Strptime.strptime (clock_text (Clock.hour t) (Clock.minute t))
  = Some (Strptime.make_struct_time (Clock.hour t) (Clock.minute t)).
Proof. apply strptime_clock_text; [apply hour_range|apply minute_range]. Qed.

Lemma digit_range (c : ascii) :
  Strptime.is_digit c = true -> 0 <= Strptime.digit c <= 9.
Proof.
  unfold Strptime.is_digit, Strptime.digit. intros H.
  apply andb_prop in H. destruct H as [H1 H2].
  apply Nat.leb_le in H1. apply Nat.leb_le in H2. lia.
Qed.

Ltac split_conditions :=
  repeat match goal with
         | H : _ && _ = true |- _ => apply andb_prop in H; destruct H
         | H : (_ <=? _) = true |- _ => apply Z.leb_le in H
         | H : Strptime.is_digit _ = true |- _ => apply digit_range in H
         end.

Lemma directive_H_range (s r : string) (h : Z) :
  In (h, r) (Strptime.directive_H s) -> 0 <= h <= 23.
Proof.
  unfold Strptime.directive_H. intros H.
  apply in_app_or in H. destruct H as [H|H].
  - destruct s as [|c1 [|c2 r']]; try contradiction.
    apply in_app_or in H. destruct H as [H|H].
    + destruct (_ && _ && _) eqn:E in H; [|contradiction].
      destruct H as [H|[]]. apply pair_equal_spec in H.
      destruct H as [<- _]. split_conditions. lia.
    + destruct (_ && _ && _) eqn:E in H; [|contradiction].
      destruct H as [H|[]]. apply pair_equal_spec in H.
      destruct H as [<- _]. split_conditions. lia.
  - destruct s as [|c1 r']; [contradiction|].
    destruct (Strptime.is_digit c1) eqn:E; [|contradiction].
    destruct H as [H|[]]. apply pair_equal_spec in H.
      destruct H as [<- _]. split_conditions. lia.
Qed.

Lemma directive_M_range (s r : string) (mi : Z) :
  In (mi, r) (Strptime.directive_M s) -> 0 <= mi <= 59.
Proof.
  unfold Strptime.directive_M. intros H.
  apply in_app_or in H. destruct H as [H|H].
  - destruct s as [|c1 [|c2 r']]; try contradiction.
    destruct (_ && _ && _) eqn:E in H; [|contradiction].
    destruct H as [H|[]]. apply pair_equal_spec in H.
      destruct H as [<- _]. split_conditions. lia.
  - destruct s as [|c1 r']; [contradiction|].
    destruct (Strptime.is_digit c1) eqn:E; [|contradiction].
    destruct H as [H|[]]. apply pair_equal_spec in H.
      destruct H as [<- _]. split_conditions. lia.
Qed.

Lemma first_match_from (hs : list (Z * string)) (h mi : Z) (rest : string) :
  Strptime.first_match hs = Some (h, mi, rest) ->
  exists r0 r1, In (h, r0) hs /\ In (mi, rest) (Strptime.directive_M r1).
Proof.
  induction hs as [|[h0 s0] hs IH]; simpl; [discriminate|].
  intros H.
  assert (Hlater : Strptime.first_match hs = Some (h, mi, rest) ->
                   exists r0 r1, In (h, r0) ((h0, s0) :: hs)
                                 /\ In (mi, rest) (Strptime.directive_M r1)).
  { intros H'. destruct (IH H') as [r0 [r1 [Hin Hm]]].
    exists r0, r1. split; [now right|exact Hm]. }
  destruct s0 as [|c r]; [auto|].
  destruct (Ascii.eqb c ":"); [|auto].
  destruct (Strptime.directive_M r) as [|[m0 rest0] ms] eqn:EM; [auto|].
  inversion H; subst. exists (String c r), r.
  split; [now left|]. rewrite EM. now left.
Qed.

(** Whatever text [strptime] accepts, the result is a time of day: the
    default date with an hour from 0 to 23 and a minute from 0 to 59. *)
Theorem strptime_gives_time_of_day (data_string : string)
        (st : Strptime.struct_time) :
  Strptime.strptime data_string = Some st ->
  exists h mi, st = Strptime.make_struct_time h mi
               /\ 0 <= h <= 23 /\ 0 <= mi <= 59.
Proof.
  unfold Strptime.strptime. intros H.
  destruct (Strptime.first_match (Strptime.directive_H data_string))
    as [[[h mi] rest]|] eqn:E; [|discriminate].
  destruct rest; [|discriminate]. inversion H; subst.
  destruct (first_match_from _ _ _ _ E) as [r0 [r1 [Hh Hm]]].
  exists h, mi. split; [reflexivity|]. split.
  - exact (directive_H_range _ _ _ Hh).
  - exact (directive_M_range _ _ _ Hm).
Qed.

Lemma strptime_gives_time_of_day_witness :
  Strptime.strptime "7:05" = Some (Strptime.make_struct_time 7 5)
  /\ exists h mi, Strptime.make_struct_time 7 5 = Strptime.make_struct_time h mi
                  /\ 0 <= h <= 23 /\ 0 <= mi <= 59.
Proof.
  split; [reflexivity|].
  exact (strptime_gives_time_of_day "7:05" (Strptime.make_struct_time 7 5)
           eq_refl).
Defined.

(** Two parsed times compare as their minutes since midnight: the
    comparison of line 88 has the grain of a minute and ignores the date
    part, equal on both sides. *)
Theorem struct_time_order_is_minute_order (h1 m1 h2 m2 : Z) :
  0 <= m1 < 60 ->
  0 <= m2 < 60 ->
  Strptime.ge (Strptime.make_struct_time h1 m1) (Strptime.make_struct_time h2 m2)
  = (60 * h2 + m2 <=? 60 * h1 + m1).
Proof.
  intros H1 H2. unfold Strptime.ge, Strptime.make_struct_time.
  set (minutes := (_ <=? _)). cbn.
  destruct (Z.compare_spec h1 h2) as [->|Hlt|Hgt].
  - destruct (Z.compare_spec m1 m2) as [->|Hlt|Hgt]; cbn; symmetry;
      subst minutes.
    + apply Z.leb_le. lia.
    + apply Z.leb_gt. lia.
    + apply Z.leb_le. lia.
  - symmetry. apply Z.leb_gt. lia.
  - symmetry. apply Z.leb_le. lia.
Qed.

Lemma struct_time_order_is_minute_order_witness :
  (0 <= 59 < 60 /\ 0 <= 0 < 60)
  /\ Strptime.ge (Strptime.make_struct_time 8 59) (Strptime.make_struct_time 9 0)
     = (60 * 9 + 0 <=? 60 * 8 + 59).
Proof.
  assert (H1 : 0 <= 59 < 60) by lia.
  assert (H2 : 0 <= 0 < 60) by lia.
  split; [split; assumption|].
  exact (struct_time_order_is_minute_order 8 59 9 0 H1 H2).
Defined.

(** The loop over well-formed fixed times stops at the first one, in the
    order the schedule lists them, that is due and has not run today; it
    ends without a slot when there is none. *)
Theorem first_due_slot_wins (c : string) (w : World) (times : list string) :
  Forall (fun t => Strptime.strptime t <> None) times ->
  run_at_times_loop c w times = Return (find (slot_fires c w) times).
Proof.
  induction 1 as [|t times Ht _ IH]; [reflexivity|].
  cbn [run_at_times_loop find]. unfold slot_fires at 1.
  destruct (Strptime.strptime t) as [ut|]; [|contradiction].
  rewrite actual_time_parses_aux.
  destruct (Strptime.ge _ ut); cbn [andb]; [|exact IH].
  destruct (ran_today c t w); [reflexivity|exact IH].
Qed.

Lemma first_due_slot_wins_witness :
  let times := ["08:00"%string; "09:00"%string; "23:30"%string] in
  let w := Sample.env [Sample.record (Sample.at_time 8 0) true
                         (Some "08:00"%string)]
                      (Sample.at_time 10 0) in
  Forall (fun t => Strptime.strptime t <> None) times
  /\ run_at_times_loop "reports.daily" w times = Return (Some "09:00"%string).
Proof.
  intros times w.
  assert (H : Forall (fun t => Strptime.strptime t <> None) times)
    by (repeat constructor; discriminate).
  split; [exact H|].
  exact (first_due_slot_wins "reports.daily" w times H).
Defined.

Lemma loop_skips_tagged
        (c : string) (w : World) (times : list string)
        (time_data : string) (r : CronJobLog.t) :
  In r (objects w) ->
  CronJobLog.code r = c ->
  CronJobLog.ran_at_time r = Some time_data ->
  started_today w r ->
  run_at_times_loop c w times <> Return (Some time_data).
Proof.
  intros Hr Hc Ha Hs.
  assert (Hin : In r (ran_today c time_data w)).
  { apply filter_In. split; [exact Hr|].
    unfold has_code. rewrite Hc, String.eqb_refl.
    apply Z.ltb_lt in Hs. rewrite Hs.
    apply ran_at_iff in Ha. rewrite Ha. reflexivity. }
  induction times as [|t times IH]; cbn [run_at_times_loop]; [discriminate|].
  destruct (Strptime.strptime t); [|discriminate].
  destruct (Strptime.strptime (clock_text _ _)); [|discriminate].
  destruct (Strptime.ge _ _); [|exact IH].
  destruct (ran_today c t w) eqn:E; [|exact IH].
  intros H. inversion H; subst. rewrite E in Hin. destruct Hin.
Qed.

(** Once the log holds a record of the code tagged with a fixed time and
    started after today's midnight, the loop never picks that fixed time
    again today, wherever it stands in the schedule and whatever the other
    fixed times are. *)
Theorem tagged_today_blocks_slot
        (c : string) (w : World) (times : list string)
        (time_data : string) (r : CronJobLog.t) :
  In r (objects w) ->
  CronJobLog.code r = c ->
  CronJobLog.ran_at_time r = Some time_data ->
  started_today w r ->
  run_at_times_loop c w times <> Return (Some time_data).
Proof.
  intros Hr Hc Ha Hs. exact (loop_skips_tagged c w times time_data r Hr Hc Ha Hs).
Qed.

Lemma tagged_today_blocks_slot_witness :
  let r := Sample.record (Sample.at_time 12 0) true (Some "12:00"%string) in
  let w := Sample.env [r] (Sample.at_time 18 0) in
  started_today w r
  /\ run_at_times_loop "reports.daily" w ["12:00"%string; "9:30"%string]
     = Return (Some "9:30"%string)
  /\ run_at_times_loop "reports.daily" w ["12:00"%string; "9:30"%string]
     <> Return (Some "12:00"%string).
Proof.
  intros r w.
  assert (Hs : started_today w r) by reflexivity.
  split; [exact Hs|]. split; [reflexivity|].
  exact (tagged_today_blocks_slot "reports.daily" w
           ["12:00"%string; "9:30"%string] "12:00" r
           (or_introl eq_refl) eq_refl eq_refl Hs).
Defined.

(** * Further properties of [__exit__] *)

Lemma slice_from_negative_length (s : string) (k : Z) :
  0 < k ->
  PyStr.len (PyStr.slice_from s (- k)) = Z.min (PyStr.len s) k.
Proof.
  intros Hk. unfold PyStr.slice_from, PyStr.len.
  replace (- k <? 0) with true by (symmetry; apply Z.ltb_lt; lia).
  rewrite length_drop. lia.
Qed.

(** The bound of 1000 characters holds for the message of a failure when
    the status message is missing, empty or at most 994 characters long. *)
Theorem failure_message_bounded (cron_msg : option string) (trace : string) :
  match cron_msg with
  | Some text => (String.length text <= 994)%nat
  | None => True
  end ->
  (String.length (failure_message cron_msg trace) <= 1000)%nat.
Proof.
  intros Hshort.
  assert (Hplain : (String.length (PyStr.slice_from trace (-1000)) <= 1000)%nat).
  { pose proof (slice_from_negative_length trace 1000 ltac:(lia)) as H.
    unfold PyStr.len in H. cbn [Z.opp] in H. lia. }
  unfold failure_message. destruct cron_msg as [text|]; [|exact Hplain].
  destruct (PyStr.truthy text); [|exact Hplain].
  rewrite !length_append.
  change (String.length PyStr.ellipsis) with 5%nat.
  change (PyStr.len PyStr.ellipsis) with 5.
  pose proof (slice_from_negative_length trace (1000 - PyStr.len text - 5)) as H.
  unfold PyStr.len in *. lia.
Qed.

Lemma failure_message_bounded_witness :
  (String.length Sample.status50 <= 994)%nat
  /\ (String.length (failure_message (Some Sample.status50) Sample.trace1200)
      <= 1000)%nat.
Proof.
  assert (H : (String.length Sample.status50 <= 994)%nat)
    by (apply Nat.leb_le; reflexivity).
  split; [exact H|].
  exact (failure_message_bounded (Some Sample.status50) Sample.trace1200 H).
Defined.

(** With a status message of 995 characters or more the bound is lost:
    [msg[-offset:]] with [offset] zero or negative no longer takes the end
    of the trace but the trace without its first [-offset] characters
    (all of it at 995), so the message is at least 1000 characters long
    and grows with the trace. *)
Theorem failure_message_long_status (text trace : string) :
  (995 <= String.length text)%nat ->
  failure_message (Some text) trace
  = (text ++ PyStr.ellipsis
     ++ PyStr.drop (String.length text - 995) trace)%string
  /\ String.length (failure_message (Some text) trace)
     = (String.length text + 5
        + (String.length trace - (String.length text - 995)))%nat.
Proof.
  intros Hlong.
  assert (E : failure_message (Some text) trace
              = (text ++ PyStr.ellipsis
                 ++ PyStr.drop (String.length text - 995) trace)%string).
  { unfold failure_message.
    destruct text as [|ch text']; [cbn in Hlong; lia|].
    cbn [PyStr.truthy]. set (t := String ch text') in *.
    change (PyStr.len PyStr.ellipsis) with 5.
    unfold PyStr.slice_from.
    replace (- (1000 - PyStr.len t - 5) <? 0) with false
      by (symmetry; apply Z.ltb_ge; unfold PyStr.len; lia).
    unfold PyStr.len.
    destruct (Z.min_spec (- (1000 - Z.of_nat (String.length t) - 5))
                         (Z.of_nat (String.length trace))) as [[Hlt ->]|[Hge ->]].
    - replace (Z.to_nat (- (1000 - Z.of_nat (String.length t) - 5)))
        with (String.length t - 995)%nat by lia.
      reflexivity.
    - rewrite Nat2Z.id.
      assert (Hall : forall n s, (String.length s <= n)%nat ->
                                 PyStr.drop n s = EmptyString).
      { induction n as [|n IH]; intros s Hs.
        - destruct s; [reflexivity|cbn in Hs; lia].
        - destruct s; [reflexivity|]. cbn in *. apply IH. lia. }
      rewrite (Hall (String.length trace) trace) by lia.
      rewrite (Hall (String.length t - 995)%nat trace) by lia.
      reflexivity. }
  split; [exact E|].
  rewrite E, !length_append, length_drop.
  change (String.length PyStr.ellipsis) with 5%nat. lia.
Qed.

Lemma failure_message_long_status_witness :
  let text := Sample.filler 995 "s" in
  (995 <= String.length text)%nat
  /\ failure_message (Some text) Sample.trace1200
     = (text ++ PyStr.ellipsis ++ Sample.trace1200)%string
  /\ String.length (failure_message (Some text) Sample.trace1200) = 2200%nat.
Proof.
  intros text.
  assert (H : (995 <= String.length text)%nat)
    by (apply Nat.leb_le; vm_compute; reflexivity).
  split; [exact H|].
  destruct (failure_message_long_status text Sample.trace1200 H) as [E L].
  split.
  - rewrite E. vm_compute. reflexivity.
  - rewrite L. vm_compute. reflexivity.
Defined.

(** A write the storage refuses is absorbed: [__exit__] still returns
    true, whatever exception it was given; the run log is as before and
    the last thing logged is the error of the write. The record object on
    the manager is filled all the same. *)
Theorem save_failure_is_absorbed
        (ex : option PyExc) (m : CronJobManager) (w : World)
        (cl : CronJobLog.t) (cron_msg : option string) (err : string) :
  cron_log m = Some cl ->
  msg m = Some cron_msg ->
  save_error w = Some err ->
  verdict (__exit__ ex m w) = Return true
  /\ objects (world_after (__exit__ ex m w)) = objects w
  /\ (exists earlier,
        logged (world_after (__exit__ ex m w))
        = earlier ++ [(ERROR, ("Error saving cronjob log message: " ++ err)%string)])
  /\ cron_log (manager_after (__exit__ ex m w))
     = Some (exit_record m cl cron_msg ex (now w)).
Proof.
  intros Hl Hm Hs. rewrite (__exit___unfold ex m w cl cron_msg Hl Hm).
  unfold verdict, world_after, manager_after, exit_world. rewrite Hs. cbn.
  repeat split. eexists. reflexivity.
Qed.

Lemma save_failure_is_absorbed_witness :
  let j := Sample.job (mkSchedule (Some 60) [] None) (Sample.returning "ok") in
  let m := Sample.entered j false "ok" (Sample.at_time 9 0) in
  let w := mkWorld [] (Sample.at_time 9 1) [] (Some "database is locked"%string) in
  verdict (__exit__ None m w) = Return true
  /\ objects (world_after (__exit__ None m w)) = []
  /\ logged (world_after (__exit__ None m w))
     = [(ERROR, "Error saving cronjob log message: database is locked"%string)].
Proof.
  intros j m w.
  destruct (save_failure_is_absorbed None m w
              (CronJobLog.create (code j) (Sample.at_time 9 0))
              (Some "ok"%string) "database is locked" eq_refl eq_refl eq_refl)
    as [Hv [Ho _]].
  split; [exact Hv|]. split; [exact Ho|]. reflexivity.
Defined.

(** * Further properties of [run] and of the [with] statement *)

Lemma should_run_now_keeps_world (force : bool) (m : CronJobManager)
      (w : World) :
  snd (should_run_now force m w) = w.
Proof.
  destruct (cron_job m) as [j|] eqn:Hj.
  - rewrite (should_run_now_unfold force m w j Hj).
    destruct force; [reflexivity|].
    destruct (interval_rule _ _ _) as [b|]; [reflexivity|].
    destruct (run_at_times_loop _ _ _) as [[t|]|e]; reflexivity.
  - unfold should_run_now. run_py. rewrite Hj. reflexivity.
Qed.

Lemma should_run_now_false (force : bool) (m : CronJobManager) (j : CronJob)
      (w : World) :
  cron_job m = Some j ->
  verdict (should_run_now force m w) = Return false ->
  forall m', cron_job m' = Some j ->
    should_run_now force m' w = (Return false, set_user_time None m', w).
Proof.
  intros Hj Hv m' Hj'.
  rewrite (should_run_now_unfold force m w j Hj) in Hv.
  rewrite (should_run_now_unfold force m' w j Hj').
  destruct force; [discriminate|].
  destruct (interval_rule (schedule j) (code j) w) as [b|].
  - cbn in Hv. inversion Hv; subst. reflexivity.
  - destruct (run_at_times_loop (code j) w (run_at_times (schedule j)))
      as [[t|]|e]; cbn in Hv; try discriminate. reflexivity.
Qed.

Lemma run_skip_unfold (force : bool) (m : CronJobManager) (w : World)
      (c : CronJob) :
  cron_job_class m = Class c ->
  is_cron_job c = true ->
  verdict (should_run_now force (set_cron_job c m) w) = Return false ->
  run force m w = (Return tt, set_user_time None (set_cron_job c m), w).
Proof.
  intros Hc Hs Hv.
  pose proof (should_run_now_false force (set_cron_job c m) c w eq_refl Hv
                (set_cron_job c m) eq_refl) as Hgo.
  unfold run, bind at 1, self. rewrite Hc, Hs.
  cbn [negb]. unfold bind at 1, setattr at 1. unfold bind at 1.
  rewrite Hgo. reflexivity.
Qed.

(** When the decision is not to run, [run] does not call the job body:
    the environment (run log, logger, clock) is untouched, and on the
    manager only the job instance and the reset slot are assigned; [msg]
    and [cron_log] stay as they were. *)
Theorem skipped_run_touches_nothing
        (force : bool) (m : CronJobManager) (w : World) (c : CronJob) :
  cron_job_class m = Class c ->
  is_cron_job c = true ->
  verdict (should_run_now force (set_cron_job c m) w) = Return false ->
  verdict (run force m w) = Return tt
  /\ world_after (run force m w) = w
  /\ msg (manager_after (run force m w)) = msg m
  /\ cron_log (manager_after (run force m w)) = cron_log m
  /\ user_time (manager_after (run force m w)) = Some None.
Proof.
  intros Hc Hs Hv. rewrite (run_skip_unfold force m w c Hc Hs Hv).
  repeat split.
Qed.

Lemma skipped_run_touches_nothing_witness :
  let c := Sample.job (mkSchedule (Some 60) [] None)
                      (Sample.failing "never called") in
  let m := __init__ (Class c) false in
  let w := Sample.env [Sample.record (Sample.at_time 9 0) true None]
                      (Sample.at_time 9 30) in
  verdict (should_run_now false (set_cron_job c m) w) = Return false
  /\ verdict (run false m w) = Return tt
  /\ world_after (run false m w) = w.
Proof.
  intros c m w.
  assert (Hv : verdict (should_run_now false (set_cron_job c m) w) = Return false)
    by reflexivity.
  split; [exact Hv|].
  destruct (skipped_run_touches_nothing false m w c eq_refl eq_refl Hv)
    as [H1 [H2 _]].
  split; assumption.
Defined.

(** [run] by itself catches nothing and records nothing: when the job
    body raises, the exception leaves [run], [msg] is not assigned, and
    the environment is the one the job body left. *)
Theorem run_lets_job_error_through
        (force : bool) (m : CronJobManager) (w w' : World)
        (c : CronJob) (trace : string) :
  cron_job_class m = Class c ->
  is_cron_job c = true ->
  verdict (should_run_now force (set_cron_job c m) w) = Return true ->
  do c (announced c w) = (Raises trace, w') ->
  verdict (run force m w) = Raise (JobError trace)
  /\ world_after (run force m w) = w'
  /\ msg (manager_after (run force m w)) = msg m.
Proof.
  intros Hc Hs Hv Hdo.
  destruct (should_run_now_true force (set_cron_job c m) c w eq_refl Hv)
    as [u Hu].
  rewrite (run_unfold force m w c u Hc Hs (Hu (set_cron_job c m) eq_refl)).
  rewrite Hdo. repeat split.
Qed.

Lemma run_lets_job_error_through_witness :
  let c := Sample.job (mkSchedule (Some 60) [] None)
                      (Sample.failing "Traceback: boom") in
  let m := __init__ (Class c) true in
  let w := Sample.env [] (Sample.at_time 9 0) in
  (verdict (should_run_now false (set_cron_job c m) w) = Return true
   /\ do c (announced c w) = (Raises "Traceback: boom", announced c w))
  /\ verdict (run false m w) = Raise (JobError "Traceback: boom")
  /\ world_after (run false m w) = announced c w
  /\ msg (manager_after (run false m w)) = None.
Proof.
  intros c m w. split; [split; reflexivity|].
  exact (run_lets_job_error_through false m w (announced c w) c
           "Traceback: boom" eq_refl eq_refl eq_refl eq_refl).
Defined.

(** [run] never stores a record: for every manager, class or not, and
    every decision, if the job body leaves the run log alone then the run
    log after [run] is the run log before. Records are written by
    [__exit__] only. *)
Theorem run_never_saves (force : bool) (m : CronJobManager) (w : World) :
  (forall c, cron_job_class m = Class c ->
             objects (snd (do c (announced c w))) = objects w) ->
  objects (world_after (run force m w)) = objects w.
Proof.
  intros Hdo.
  destruct (cron_job_class m) as [c|o] eqn:Hc.
  2:{ unfold run, bind, self, raise. rewrite Hc. reflexivity. }
  destruct (is_cron_job c) eqn:Hs.
  2:{ unfold run, bind, self, raise. rewrite Hc, Hs. reflexivity. }
  destruct (verdict (should_run_now force (set_cron_job c m) w)) as [[|]|e] eqn:Hv.
  - destruct (should_run_now_true force (set_cron_job c m) c w eq_refl Hv)
      as [u Hu].
    rewrite (run_unfold force m w c u Hc Hs (Hu (set_cron_job c m) eq_refl)).
    specialize (Hdo c eq_refl).
    destruct (do c (announced c w)) as [[v|t] w']; exact Hdo.
  - now rewrite (run_skip_unfold force m w c Hc Hs Hv).
  - pose proof (should_run_now_keeps_world force (set_cron_job c m) w) as Hw.
    unfold run, bind at 1, self. rewrite Hc, Hs.
    cbn [negb]. unfold bind at 1, setattr at 1. unfold bind at 1.
    destruct (should_run_now force (set_cron_job c m) w) as [[o m'] w'] eqn:E.
    cbn in Hv, Hw. subst o w'. reflexivity.
Qed.

Lemma run_never_saves_witness :
  let c := Sample.job (mkSchedule (Some 60) [] None) (Sample.returning "ok") in
  let m := __init__ (Class c) false in
  let w := Sample.env [] (Sample.at_time 9 0) in
  verdict (run false m w) = Return tt
  /\ msg (manager_after (run false m w)) = Some (Some "ok"%string)
  /\ objects (world_after (run false m w)) = objects w.
Proof.
  intros c m w. split; [reflexivity|]. split; [reflexivity|].
  apply (run_never_saves false m w).
  intros c' Hc'. inversion Hc'; subst c'. reflexivity.
Defined.

Lemma with_run_skip_unfold (force : bool) (m : CronJobManager) (w : World)
      (c : CronJob) :
  cron_job_class m = Class c ->
  is_cron_job c = true ->
  verdict (should_run_now force (set_cron_job c m) w) = Return false ->
  with_run force m w =
  match __exit__ None
          (set_user_time None
             (set_cron_job c
                (set_cron_log (CronJobLog.create (code c) (now w)) m))) w with
  | (Return _, m3, w3) => (Return tt, m3, w3)
  | (Raise e', m3, w3) => (Raise e', m3, w3)
  end.
Proof.
  intros Hc Hs Hv.
  unfold with_run. rewrite (__enter___unfold m w c Hc).
  set (m0 := set_cron_log (CronJobLog.create (code c) (now w)) m).
  assert (Hv0 : verdict (should_run_now force (set_cron_job c m0) w)
                = Return false).
  { now rewrite (should_run_now_false force (set_cron_job c m) c w eq_refl Hv
                   (set_cron_job c m0) eq_refl). }
  rewrite (run_skip_unfold force m0 w c Hc Hs Hv0). reflexivity.
Qed.

(** A skipped run on a manager fresh from [__init__]: nothing is stored,
    but the [with] statement does not end quietly. [__exit__] reads
    [self.msg], which only a job body that returned has assigned, and the
    [AttributeError] leaves the statement. *)
Theorem skipped_run_raises_on_fresh_manager
        (force : bool) (m : CronJobManager) (w : World) (c : CronJob) :
  cron_job_class m = Class c ->
  is_cron_job c = true ->
  msg m = None ->
  verdict (should_run_now force (set_cron_job c m) w) = Return false ->
  verdict (with_run force m w) = Raise (AttributeError "msg")
  /\ world_after (with_run force m w) = w.
Proof.
  intros Hc Hs Hm Hv. rewrite (with_run_skip_unfold force m w c Hc Hs Hv).
  match goal with
  | |- context [__exit__ ?ex ?mm ?ww] =>
      rewrite (__exit___without_msg ex mm ww
                 (CronJobLog.create (code c) (now w)) eq_refl Hm)
  end.
  split; reflexivity.
Qed.

Lemma skipped_run_raises_on_fresh_manager_witness :
  let c := Sample.job (mkSchedule (Some 60) [] None) (Sample.returning "ok") in
  let m := __init__ (Class c) false in
  let w := Sample.env [Sample.record (Sample.at_time 9 0) true None]
                      (Sample.at_time 9 30) in
  (msg m = None
   /\ verdict (should_run_now false (set_cron_job c m) w) = Return false)
  /\ verdict (with_run false m w) = Raise (AttributeError "msg")
  /\ world_after (with_run false m w) = w.
Proof.
  intros c m w. split; [split; reflexivity|].
  exact (skipped_run_raises_on_fresh_manager false m w c
           eq_refl eq_refl eq_refl eq_refl).
Defined.

(** A skipped run on a manager that still holds the [msg] of an earlier
    run: the [with] statement ends normally and [__exit__] stores a
    record all the same, a success carrying the old message and no slot,
    although the job body was not called. *)
Theorem skipped_run_still_records
        (force : bool) (m : CronJobManager) (w : World) (c : CronJob)
        (old_msg : option string) :
  cron_job_class m = Class c ->
  is_cron_job c = true ->
  msg m = Some old_msg ->
  verdict (should_run_now force (set_cron_job c m) w) = Return false ->
  save_error w = None ->
  exists r,
    verdict (with_run force m w) = Return tt
    /\ objects (world_after (with_run force m w)) = objects w ++ [r]
    /\ logged (world_after (with_run force m w)) = logged w
    /\ CronJobLog.code r = code c
    /\ CronJobLog.start_time r = now w
    /\ CronJobLog.end_time r = Some (now w)
    /\ CronJobLog.is_success r = true
    /\ CronJobLog.message r = old_msg
    /\ CronJobLog.ran_at_time r = None.
Proof.
  intros Hc Hs Hm Hv Hok. rewrite (with_run_skip_unfold force m w c Hc Hs Hv).
  match goal with
  | |- context [__exit__ ?ex ?mm ?ww] =>
      rewrite (__exit___unfold ex mm ww
                 (CronJobLog.create (code c) (now w)) old_msg eq_refl Hm)
  end.
  eexists. unfold verdict, world_after, exit_world. rewrite Hok. cbn.
  rewrite app_nil_r. repeat split.
Qed.

Lemma skipped_run_still_records_witness :
  let c := Sample.job (mkSchedule (Some 60) [] None) (Sample.returning "ok") in
  let m := set_msg (Some "ok"%string) (__init__ (Class c) false) in
  let w := Sample.env [Sample.record (Sample.at_time 9 0) true None]
                      (Sample.at_time 9 30) in
  verdict (should_run_now false (set_cron_job c m) w) = Return false
  /\ exists r,
      verdict (with_run false m w) = Return tt
      /\ objects (world_after (with_run false m w)) = objects w ++ [r]
      /\ logged (world_after (with_run false m w)) = logged w
      /\ CronJobLog.code r = code c
      /\ CronJobLog.start_time r = now w
      /\ CronJobLog.end_time r = Some (now w)
      /\ CronJobLog.is_success r = true
      /\ CronJobLog.message r = Some "ok"%string
      /\ CronJobLog.ran_at_time r = None.
Proof.
  intros c m w. split; [reflexivity|].
  exact (skipped_run_still_records false m w c (Some "ok"%string)
           eq_refl eq_refl eq_refl eq_refl eq_refl).
Defined.

(** A run whose job body returns: the [with] statement ends normally
    and, the storage taking the write, the run log gains exactly one
    record. It is a success for the code, started when the block was
    entered and ended on the clock the job body left, tagged with the slot
    [should_run_now] matched; its message is the returned value as it is,
    of any length. [__exit__] logs nothing. *)
Theorem successful_run_records_once
        (force : bool) (m : CronJobManager) (w w' : World)
        (c : CronJob) (v : option string) :
  cron_job_class m = Class c ->
  is_cron_job c = true ->
  verdict (should_run_now force (set_cron_job c m) w) = Return true ->
  do c (announced c w) = (Returns v, w') ->
  save_error w' = None ->
  exists r,
    verdict (with_run force m w) = Return tt
    /\ objects (world_after (with_run force m w)) = objects w' ++ [r]
    /\ logged (world_after (with_run force m w)) = logged w'
    /\ CronJobLog.code r = code c
    /\ CronJobLog.start_time r = now w
    /\ CronJobLog.end_time r = Some (now w')
    /\ CronJobLog.is_success r = true
    /\ CronJobLog.message r = v
    /\ Some (CronJobLog.ran_at_time r)
       = user_time (manager_after (should_run_now force (set_cron_job c m) w))
    /\ msg (manager_after (with_run force m w)) = Some v.
Proof.
  intros Hc Hs Hv Hdo Hok.
  destruct (with_run_unfold force m w c Hc Hs Hv) as [u [Hu E]].
  cbv zeta in E. rewrite Hdo in E.
  match type of E with
  | context [__exit__ ?ex ?mm ?ww] =>
      rewrite (__exit___unfold ex mm ww
                 (CronJobLog.create (code c) (now w)) v eq_refl eq_refl) in E
  end.
  rewrite E, Hu. eexists.
  unfold verdict, world_after, manager_after, exit_world. rewrite Hok. cbn.
  rewrite app_nil_r. repeat split.
Qed.

Lemma successful_run_records_once_witness :
  let c := Sample.job (mkSchedule None ["09:00"%string] None)
                      (fun w => (Returns (Some (Sample.filler 1500 "m")),
                                 mkWorld (objects w) (now w + 7) (logged w)
                                         (save_error w))) in
  let m := __init__ (Class c) false in
  let w := Sample.env [] (Sample.at_time 9 30) in
  verdict (should_run_now false (set_cron_job c m) w) = Return true
  /\ exists r,
      objects (world_after (with_run false m w)) = [r]
      /\ CronJobLog.start_time r = Sample.at_time 9 30
      /\ CronJobLog.end_time r = Some (Sample.at_time 9 30 + 7)
      /\ CronJobLog.message r = Some (Sample.filler 1500 "m")
      /\ CronJobLog.ran_at_time r = Some "09:00"%string.
Proof.
  intros c m w.
  assert (Hv : verdict (should_run_now false (set_cron_job c m) w) = Return true)
    by reflexivity.
  split; [exact Hv|].
  destruct (successful_run_records_once false m w
              (mkWorld (objects (announced c w)) (now (announced c w) + 7)
                       (logged (announced c w)) (save_error (announced c w)))
              c (Some (Sample.filler 1500 "m")) eq_refl eq_refl Hv eq_refl eq_refl)
    as [r [_ [Ho [_ [_ [Hst [He [_ [Hm [Hslot _]]]]]]]]]].
  exists r. split; [exact Ho|]. split; [exact Hst|]. split; [exact He|].
  split; [exact Hm|].
  assert (Hs' : Some (CronJobLog.ran_at_time r) = Some (Some "09:00"%string))
    by exact Hslot.
  now inversion Hs'.
Defined.

Lemma interval_rule_no_history (s : Schedule) (c : string) (w : World)
      (every : Z) :
  run_every_mins s = Some every ->
  filter (has_code c) (objects w) = [] ->
  interval_rule s c w = Some true.
Proof.
  intros He Hnil. unfold interval_rule. rewrite He, Hnil. cbn.
  rewrite <- (filter_narrow _ (has_code c)).
  - rewrite Hnil. reflexivity.
  - intros x Hx. apply andb_prop in Hx. destruct Hx as [Hx _].
    apply andb_prop in Hx. tauto.
Qed.

(** An interval job from its first run on: with an interval, no fixed
    times and no record of the code, the run inside the [with] statement
    executes and stores a success; from then on, as long as the log holds
    just that, [should_run_now] on the same manager answers whether the
    clock is strictly more than the interval past the start of that run. *)
Theorem interval_job_runs_then_waits
        (m : CronJobManager) (w w' : World) (c : CronJob)
        (every : Z) (v : option string) :
  cron_job_class m = Class c ->
  is_cron_job c = true ->
  run_every_mins (schedule c) = Some every ->
  run_at_times (schedule c) = [] ->
  (forall r, In r (objects w) -> CronJobLog.code r <> code c) ->
  do c (announced c w) = (Returns v, w') ->
  objects w' = objects w ->
  save_error w' = None ->
  exists m3 w3 r,
    with_run false m w = (Return tt, m3, w3)
    /\ objects w3 = objects w ++ [r]
    /\ forall w4,
        objects w4 = objects w3 ->
        should_run_now false m3 w4
        = (Return (now w4 >? now w + Clock.timedelta_minutes every),
           set_user_time None m3, w4).
Proof.
  intros Hc Hs He Ht Hno Hdo Hsame Hok.
  assert (Hnil : filter (has_code (code c)) (objects w) = []).
  { apply filter_nil_iff. intros r Hr. unfold has_code.
    apply String.eqb_neq. apply Hno. exact Hr. }
  assert (Hgo : should_run_now false (set_cron_job c m) w
                = (Return true, set_user_time None (set_cron_job c m), w)).
  { rewrite (should_run_now_unfold false (set_cron_job c m) w c eq_refl).
    now rewrite (interval_rule_no_history _ _ _ every He Hnil). }
  assert (Hv : verdict (should_run_now false (set_cron_job c m) w) = Return true)
    by now rewrite Hgo.
  destruct (with_run_unfold false m w c Hc Hs Hv) as [u [Hu E]].
  rewrite Hgo in Hu.
  assert (Hslot : u = None).
  { assert (H : Some u = Some None)
      by (change (user_time (set_user_time u (set_cron_job c m)) = Some None);
          inversion Hu; reflexivity).
    now inversion H. }
  subst u. cbv zeta in E. rewrite Hdo in E.
  match type of E with
  | context [__exit__ ?ex ?mm ?ww] =>
      rewrite (__exit___unfold ex mm ww
                 (CronJobLog.create (code c) (now w)) v eq_refl eq_refl) in E
  end.
  unfold exit_world in E. rewrite Hok, Hsame in E.
  eexists. eexists. eexists. split; [exact E|]. split; [reflexivity|].
  intros w4 H4. cbn [objects] in H4.
  match goal with
  | |- should_run_now false ?m3 w4 = _ =>
      rewrite (should_run_now_unfold false m3 w4 c eq_refl)
  end.
  unfold interval_rule. rewrite He, Ht, H4, !filter_app, Hnil.
  rewrite <- (filter_narrow (fun r => _ && _ && _) (has_code (code c)) (objects w)).
  2:{ intros x Hx. apply andb_prop in Hx. destruct Hx as [Hx _].
      apply andb_prop in Hx. tauto. }
  rewrite Hnil. cbn. unfold has_code. cbn. rewrite String.eqb_refl. cbn.
  destruct (retry_after_failure_mins (schedule c)); cbn;
    destruct (now w4 >? now w + Clock.timedelta_minutes every); reflexivity.
Qed.

Lemma interval_job_runs_then_waits_witness :
  let c := Sample.job (mkSchedule (Some 60) [] None) (Sample.returning "ok") in
  let m := __init__ (Class c) false in
  let w := Sample.env [] (Sample.at_time 9 0) in
  exists m3 w3 r,
    with_run false m w = (Return tt, m3, w3)
    /\ objects w3 = objects w ++ [r]
    /\ verdict (should_run_now false m3
                  (mkWorld (objects w3) (Sample.at_time 10 0) [] None))
       = Return false
    /\ verdict (should_run_now false m3
                  (mkWorld (objects w3) (Sample.at_time 10 1) [] None))
       = Return true.
Proof.
  intros c m w.
  destruct (interval_job_runs_then_waits m w (announced c w) c 60
              (Some "ok"%string) eq_refl eq_refl eq_refl eq_refl)
    as [m3 [w3 [r [E [Ho Hnext]]]]];
    [intros r [] | reflexivity | reflexivity | reflexivity |].
  exists m3, w3, r. split; [exact E|]. split; [exact Ho|]. split.
  - rewrite (Hnext (mkWorld (objects w3) (Sample.at_time 10 0) [] None) eq_refl).
    reflexivity.
  - rewrite (Hnext (mkWorld (objects w3) (Sample.at_time 10 1) [] None) eq_refl).
    reflexivity.
Defined.

(** Without a retry delay a job that has never succeeded on the interval
    is due at every call: records of the code that are failures, or
    successes tagged with a fixed time, do not start the interval. *)
Theorem failures_do_not_delay
        (m : CronJobManager) (j : CronJob) (w : World) (every : Z) :
  cron_job m = Some j ->
  run_every_mins (schedule j) = Some every ->
  retry_after_failure_mins (schedule j) = None ->
  (forall r, In r (objects w) ->
             CronJobLog.code r = code j ->
             CronJobLog.is_success r = false
             \/ CronJobLog.ran_at_time r <> None) ->
  should_run_now false m w = (Return true, set_user_time None m, w).
Proof.
  intros Hj He Hr Hall.
  rewrite (should_run_now_unfold false m w j Hj).
  unfold interval_rule. rewrite He, Hr.
  assert (Hnil : filter (fun r => has_code (code j) r && CronJobLog.is_success r
                                  && ran_at_time_isnull r) (objects w) = []).
  { apply filter_nil_iff. intros r Hin.
    destruct (has_code (code j) r) eqn:Hcode; [|reflexivity].
    apply String.eqb_eq in Hcode.
    destruct (Hall r Hin Hcode) as [Hf|Ht].
    - rewrite Hf. reflexivity.
    - unfold ran_at_time_isnull.
      destruct (CronJobLog.ran_at_time r); [apply andb_false_r|congruence]. }
  rewrite Hnil.
  destruct (CronJobLog.latest (filter (has_code (code j)) (objects w)));
    reflexivity.
Qed.

Lemma failures_do_not_delay_witness :
  let j := Sample.job (mkSchedule (Some 1440) [] None) (Sample.failing "boom") in
  let m := set_cron_job j (__init__ (Class j) false) in
  let failed := Sample.record (Sample.at_time 9 0) false None in
  let w := Sample.env [failed] (Sample.at_time 9 0) in
  CronJobLog.is_success failed = false
  /\ should_run_now false m w = (Return true, set_user_time None m, w).
Proof.
  intros j m failed w. split; [reflexivity|].
  apply (failures_do_not_delay m j w 1440 eq_refl eq_refl eq_refl).
  intros r [<-|[]] _. left. reflexivity.
Defined.

(** An object that is not a job class inside the [with] statement of a
    manager fresh from [__init__]: the caller gets an [AttributeError]
    (of [__enter__] when the object has no [code], else of [__exit__]
    reading [self.msg], in place of the exception [run] raised) and the
    environment is untouched. *)
Theorem invalid_class_in_with
        (force : bool) (m : CronJobManager) (w : World) :
  not_a_cron_job (cron_job_class m) ->
  msg m = None ->
  exists attr,
    verdict (with_run force m w) = Raise (AttributeError attr)
    /\ world_after (with_run force m w) = w.
Proof.
  unfold not_a_cron_job. intros Hbad Hm.
  unfold with_run, __enter__, run, __exit__. run_py.
  destruct (cron_job_class m) as [c|[code_attr|]] eqn:Hc; cbn.
  - rewrite Hc. cbn. rewrite Hbad. cbn. rewrite Hm.
    eexists. split; reflexivity.
  - rewrite Hc. cbn. rewrite Hm. eexists. split; reflexivity.
  - eexists. split; reflexivity.
Qed.

Lemma invalid_class_in_with_witness :
  let plain := mkCronJob false "not.a.job" (mkSchedule (Some 5) [] None)
                 "<Plain>" (Sample.returning "ok") in
  let m := __init__ (Class plain) false in
  let w := Sample.env [] (Sample.at_time 9 0) in
  (not_a_cron_job (cron_job_class m) /\ msg m = None)
  /\ exists attr,
      verdict (with_run true m w) = Raise (AttributeError attr)
      /\ world_after (with_run true m w) = w.
Proof.
  intros plain m w. split; [split; reflexivity|].
  exact (invalid_class_in_with true m w eq_refl eq_refl).
Defined.

(** A fixed time fires once a day, whatever the schedule: when
    [should_run_now] matches a slot, the job body returns and the record
    is stored, then for the rest of that day (same log, any later clock
    of the same date) the loop does not pick that slot again. The run
    must not start on the very first instant of the day, which the query
    of line 89 does not count as today. *)
Theorem matched_slot_fires_once
        (m : CronJobManager) (w w' : World) (c : CronJob)
        (time_data : string) (v : option string) :
  cron_job_class m = Class c ->
  is_cron_job c = true ->
  verdict (should_run_now false (set_cron_job c m) w) = Return true ->
  user_time (manager_after (should_run_now false (set_cron_job c m) w))
  = Some (Some time_data) ->
  Clock.today (now w) < now w ->
  do c (announced c w) = (Returns v, w') ->
  save_error w' = None ->
  exists m3 w3 r,
    with_run false m w = (Return tt, m3, w3)
    /\ objects w3 = objects w' ++ [r]
    /\ CronJobLog.ran_at_time r = Some time_data
    /\ forall w4,
        objects w4 = objects w3 ->
        Clock.today (now w4) = Clock.today (now w) ->
        run_at_times_loop (code c) w4 (run_at_times (schedule c))
        <> Return (Some time_data).
Proof.
  intros Hc Hs Hv Hslot Hday Hdo Hok.
  destruct (with_run_unfold false m w c Hc Hs Hv) as [u [Hu E]].
  rewrite Hu in Hslot. cbn in Hslot.
  assert (u = Some time_data) by now inversion Hslot. subst u.
  cbv zeta in E. rewrite Hdo in E.
  match type of E with
  | context [__exit__ ?ex ?mm ?ww] =>
      rewrite (__exit___unfold ex mm ww
                 (CronJobLog.create (code c) (now w)) v eq_refl eq_refl) in E
  end.
  unfold exit_world in E. rewrite Hok in E.
  eexists. eexists. eexists. split; [exact E|].
  split; [reflexivity|]. split; [reflexivity|].
  intros w4 H4 Hsame. cbn [objects] in H4.
  eapply loop_skips_tagged.
  - rewrite H4. apply in_or_app. right. left. reflexivity.
  - reflexivity.
  - reflexivity.
  - unfold started_today. cbn. rewrite Hsame. exact Hday.
Qed.

Lemma matched_slot_fires_once_witness :
  let c := Sample.job (mkSchedule None ["8:15"%string; "17:45"%string] None)
                      (Sample.returning "ok") in
  let m := __init__ (Class c) false in
  let w := Sample.env [] (Sample.at_time 12 0) in
  (user_time (manager_after (should_run_now false (set_cron_job c m) w))
   = Some (Some "8:15"%string)
   /\ Clock.today (now w) < now w)
  /\ exists m3 w3 r,
      with_run false m w = (Return tt, m3, w3)
      /\ objects w3 = objects (announced c w) ++ [r]
      /\ CronJobLog.ran_at_time r = Some "8:15"%string
      /\ forall w4,
          objects w4 = objects w3 ->
          Clock.today (now w4) = Clock.today (now w) ->
          run_at_times_loop (code c) w4 (run_at_times (schedule c))
          <> Return (Some "8:15"%string).
Proof.
  intros c m w.
  assert (Hday : Clock.today (now w) < now w) by reflexivity.
  split; [split; [reflexivity|exact Hday]|].
  exact (matched_slot_fires_once m w (announced c w) c "8:15" (Some "ok"%string)
           eq_refl eq_refl eq_refl eq_refl Hday eq_refl eq_refl).
Defined.
